(** * ttdapi.client: the authenticated session, pagination and delta-sync

    A shallow embedding of [src/ttdapi/client.py] (classes [BaseTTDClient]
    and [TTDClient]) and the properties of its token handling, its
    retry-after-reauthentication request executor, its offset pagination and
    its change-tracking ("delta") pagination.

    Python objects that the client only passes around are values of [pyval];
    dictionaries are insertion-ordered association lists, as Python's are.
    The client object and the list of HTTP requests sent so far form the
    state threaded through every method; an exception leaves that state as it
    was when the exception was raised.  Generators are run to exhaustion by a
    consumer and described by the trace of what they did, in order. *)

From Stdlib Require Import ZArith List String Ascii Bool Lia.
From Stdlib Require Import DecimalString.
Import ListNotations.

Set Warnings "-register-all".
Local Open Scope string_scope.
Local Open Scope list_scope.
Local Open Scope Z_scope.

(* ------------------------------------------------------------------ *)
(** ** Python values *)

(** The values that travel through the client: what [resp.json()] decodes
    and what callers put in request bodies.  Non-integer numbers are not
    inspected by any method and are left out. *)
Inductive pyval : Type :=
| PNone
| PBool (b : bool)
| PInt (z : Z)
| PStr (s : string)
| PList (l : list pyval)
| PDict (d : list (string * pyval)).

(** A Python [dict] with string keys, in insertion order. *)
Definition dict : Type := list (string * pyval).

(** [d.get(k)]: the value under [k], if any. *)
Fixpoint dict_get (k : string) (d : dict) : option pyval :=
  match d with
  | [] => None
  | (k', v) :: d' => if String.eqb k k' then Some v else dict_get k d'
  end.

(** [d[k] = v]: overwrite in place, or append a new key at the end. *)
Fixpoint dict_set (k : string) (v : pyval) (d : dict) : dict :=
  match d with
  | [] => [(k, v)]
  | (k', v') :: d' =>
      if String.eqb k k' then (k, v) :: d' else (k', v') :: dict_set k v d'
  end.

(** [d.update(other)]: every entry of [other] is assigned into [d], in
    [other]'s order. *)
Definition dict_update (d other : dict) : dict :=
  fold_left (fun acc kv => dict_set (fst kv) (snd kv) acc) other d.

(** Truth value of an object, as [while more_data:] tests it. *)
Definition py_truthy (v : pyval) : bool :=
  match v with
  | PNone => false
  | PBool b => b
  | PInt z => negb (z =? 0)
  | PStr s => negb (String.eqb s "")
  | PList l => match l with [] => false | _ => true end
  | PDict d => match d with [] => false | _ => true end
  end.

(** [v is None]. *)
Definition is_None (v : pyval) : bool :=
  match v with PNone => true | _ => false end.

(* ------------------------------------------------------------------ *)
(** ** HTTP messages and exceptions *)

(** One call of [requests.Session.request]: the verb, the URL, the session
    headers merged into it and the [json=] body.  Of the session headers only
    the entries this client installs are tracked, and they are recorded as
    the session stores them. *)
Record Request : Type := mkRequest {
  req_method : string;
  req_url : string;
  req_headers : dict;
  req_json : option pyval
}.




(** A [requests.Response].  [resp_json] is what [resp.json()] returns, [None]
    when the body does not decode. *)
Record Response : Type := mkResponse {
  status_code : Z;
  reason : string;
  resp_url : string;
  text : string;
  resp_json : option pyval
}.

(** The field [k] of the JSON body of a request. *)
Definition body_field (k : string) (req : Request) : option pyval :=
  match req_json req with
  | Some (PDict d) => dict_get k d
  | _ => None
  end.

(** What the transport does with a request: a response, whatever its status,
    or a failure below HTTP (connection refused, timeout, ...). *)
Inductive reply : Type :=
| Replied (r : Response)
| Unreachable (e : string).

(** The remote side: its answer may depend on everything sent before. *)
Definition Server : Type := list Request -> Request -> reply.

(** The exceptions that leave the client.  The two [TTDApi...] classes live in
    [ttdapi.exceptions]; both are built from a message and [response=]. *)
Inductive exn : Type :=
| TTDApiPermissionsError (msg : string) (response : Response)
| TTDApiError (msg : string) (response : Response)
| TransportError (e : string)
| JSONDecodeError
| KeyError (k : string)
| TypeError.

(** Decimal rendering of a status code, as [str.format] prints an int. *)
Definition str_of_Z (z : Z) : string := NilZero.string_of_int (Z.to_int z).

(** The message [Response.raise_for_status] builds: non-empty exactly for the
    client-error (4xx) and server-error (5xx) ranges. *)
Definition http_error_msg (r : Response) : string :=
  if (400 <=? status_code r) && (status_code r <? 500) then
    str_of_Z (status_code r) ++ " Client Error: " ++ reason r
      ++ " for url: " ++ resp_url r
  else if (500 <=? status_code r) && (status_code r <? 600) then
    str_of_Z (status_code r) ++ " Server Error: " ++ reason r
      ++ " for url: " ++ resp_url r
  else "".

(** [resp.raise_for_status()]: [Some err] when it raises [HTTPError], with
    [err] the text of the error. *)
Definition raise_for_status (r : Response) : option string :=
  if String.eqb (http_error_msg r) "" then None else Some (http_error_msg r).

(** The status range on which [raise_for_status] raises. *)
Definition is_http_error (r : Response) : bool :=
  (400 <=? status_code r) && (status_code r <? 600).

(** [status_code in (401, 403)]. *)
Definition is_auth_failure (r : Response) : bool :=
  (status_code r =? 401) || (status_code r =? 403).

(* ------------------------------------------------------------------ *)
(** ** The client object and the state monad *)

(** The attributes of a [BaseTTDClient].  [headers] is the session's header
    dict, of which only what this class writes is kept: the defaults that
    [requests.Session] installs are never read or written here and none of
    them is the auth header. *)
Record Client : Type := mkClient {
  base_url : string;
  _login : string;
  _password : string;
  token_expires_in : Z;
  _token : pyval;
  headers : dict
}.

(** The client together with every request it has sent, oldest first. *)
Record World : Type := mkWorld {
  client : Client;
  log : list Request
}.

Inductive result (A : Type) : Type :=
| Return (a : A)
| Raise (e : exn).
Arguments Return {A} a.
Arguments Raise {A} e.

(** A method body: it reads and updates the world and returns or raises. *)
Definition M (A : Type) : Type := World -> result A * World.

Definition ret {A} (a : A) : M A := fun w => (Return a, w).
Definition raise {A} (e : exn) : M A := fun w => (Raise e, w).
Definition bind {A B} (m : M A) (k : A -> M B) : M B :=
  fun w =>
    match m w with
    | (Return a, w') => k a w'
    | (Raise e, w') => (Raise e, w')
    end.

Declare Scope py_scope.
Delimit Scope py_scope with py.
Notation "x <- m ;; k" := (bind m (fun x => k))
  (at level 100, m at next level, right associativity) : py_scope.
Notation "m ;; k" := (bind m (fun _ => k))
  (at level 100, right associativity) : py_scope.
Local Open Scope py_scope.

Definition get_client : M Client := fun w => (Return (client w), w).
Definition put_client (c : Client) : M unit :=
  fun w => (Return tt, mkWorld c (log w)).

(** Evaluation of an expression that may raise, outside any method. *)
Definition andthen {A B} (r : result A) (k : A -> result B) : result B :=
  match r with
  | Return a => k a
  | Raise e => Raise e
  end.

(** An expression evaluated inside a method body. *)
Definition lift {A} (r : result A) : M A := fun w => (r, w).

(** [v[k]] for a string key: only a dict can be subscripted by one. *)
Definition py_getitem (v : pyval) (k : string) : result pyval :=
  match v with
  | PDict d =>
      match dict_get k d with
      | Some x => Return x
      | None => Raise (KeyError k)
      end
  | _ => Raise TypeError
  end.

(** The page of a paginated endpoint carried by a parsed body: its [Result]
    entry when that is a list. *)
Definition result_list (v : pyval) : option (list pyval) :=
  match py_getitem v "Result" with
  | Return (PList items) => Some items
  | _ => None
  end.

(** [iter(v)], as the sequence of objects the iterator will produce: the
    elements of a list, the characters of a string, the keys of a dict. *)
Definition py_iter (v : pyval) : result (list pyval) :=
  match v with
  | PList l => Return l
  | PStr s => Return (map (fun c => PStr (String c EmptyString)) (list_ascii_of_string s))
  | PDict d => Return (map (fun kv => PStr (fst kv)) d)
  | _ => Raise TypeError
  end.

(** [len(v)]. *)
Definition py_len (v : pyval) : result Z :=
  match v with
  | PList l => Return (Z.of_nat (List.length l))
  | PStr s => Return (Z.of_nat (String.length s))
  | PDict d => Return (Z.of_nat (List.length d))
  | _ => Raise TypeError
  end.

(** [resp.json()]. *)
Definition response_json (r : Response) : M pyval :=
  match resp_json r with
  | Some v => ret v
  | None => raise JSONDecodeError
  end.

(** [s.lstrip("/")]: drop every leading slash. *)
Fixpoint lstrip_slash (s : string) : string :=
  match s with
  | String c s' => if Ascii.eqb c "/" then lstrip_slash s' else s
  | EmptyString => EmptyString
  end.

(** [__init__] with its defaults. *)
Definition default_token_expires_in : Z := 90.
Definition default_base_url : string := "https://api.thetradedesk.com/v3/".

Definition __init__ (login password : string) (token_expires_in : Z)
    (base_url : string) : Client :=
  mkClient base_url login password token_expires_in PNone [].

(** The default of [_refresh_token]'s [expires_in]. *)
Definition _refresh_token_default_expires_in : Z := 90.

(* ------------------------------------------------------------------ *)
(** ** Generators *)

(** What a generator does while a consumer drains it: a call it makes, with
    the argument it passed and what came back, or an object it yields. *)
Inductive event (C R Y : Type) : Type :=
| Called (arg : C) (res : result R)
| Yielded (y : Y).
Arguments Called {C R Y} arg res.
Arguments Yielded {C R Y} y.

(** How the draining ends: the generator returns ([StopIteration]), an
    exception escapes from it, or the bound on the number of pages that the
    consumer is prepared to fetch is reached first. *)
Inductive outcome : Type :=
| Exhausted
| Raised (e : exn)
| OutOfFuel.

(** The consumer of [post_paginated] holds the dict it passed as
    [json_payload], and every object it is handed.  Between two steps of the
    generator it may have changed either: [consume y payload] is the yielded
    object and the payload as the consumer leaves them. *)
Definition Consumer : Type := pyval -> dict -> pyval * dict.

(** A consumer that only reads. *)
Definition passive : Consumer := fun y payload => (y, payload).

(** The payload after the consumer was handed each of [items] in turn. *)
Definition consume_all (consume : Consumer) (items : list pyval)
    (payload : dict) : dict :=
  fold_left (fun p item => snd (consume item p)) items payload.

(** The generator's private [paging_params] dict. *)
Definition paging_params (page_start_index page_size : Z) : dict :=
  [("PageStartIndex", PInt page_start_index); ("PageSize", PInt page_size)].

(** Events of [post_paginated]: [self.post] called with a body, a page or an
    item yielded. *)
Definition page_event : Type := event dict pyval pyval.

(** One page of a delta endpoint, as [_post_delta_endpoint] returns it: the
    items still to be iterated, the new tracking version, the "more" flag. *)
Definition delta_page : Type := (list pyval * pyval * pyval)%type.

(** Events of the delta generators: one page fetched for a tracking version,
    a pair (entity, tracking version) yielded. *)
Definition delta_event : Type := event pyval delta_page (pyval * pyval).

(** The bodies passed to the calls of a trace, in order. *)
Fixpoint called_args {C R Y} (tr : list (event C R Y)) : list C :=
  match tr with
  | [] => []
  | Called a _ :: tr' => a :: called_args tr'
  | Yielded _ :: tr' => called_args tr'
  end.

(** The objects yielded in a trace, in order. *)
Fixpoint yielded {C R Y} (tr : list (event C R Y)) : list Y :=
  match tr with
  | [] => []
  | Called _ _ :: tr' => yielded tr'
  | Yielded y :: tr' => y :: yielded tr'
  end.

(* ------------------------------------------------------------------ *)
(** ** Servers and inputs used in the concrete runs *)

(** A server that answers the n-th request it receives with the n-th
    response of a script, whatever the request is, and is unreachable once
    the script is used up. *)
Definition scripted (script : list Response) : Server :=
  fun sent _ =>
    match nth_error script (List.length sent) with
    | Some r => Replied r
    | None => Unreachable "script exhausted"
    end.

(** [urljoin] on the inputs of the concrete runs: a base that ends in a slash
    and a reference made of plain path segments, which is appended. *)
Definition urljoin_onto_directory (base ref : string) : string := base ++ ref.

(** A server that gives the same answer to everything. *)
Definition always (r : Response) : Server := fun _ _ => Replied r.

(** The text of a JSON body, for strings that need no escaping. *)
Fixpoint json_dumps (v : pyval) : string :=
  (match v with
   | PNone => "null"
   | PBool b => if b then "true" else "false"
   | PInt z => str_of_Z z
   | PStr s => String "034" s ++ String "034" ""
   | PList l =>
       "[" ++ (fix elements (sep : string) (l : list pyval) : string :=
                 match l with
                 | nil => ""
                 | cons x l' => sep ++ json_dumps x ++ elements ", " l'
                 end) "" l ++ "]"
   | PDict d =>
       "{" ++ (fix entries (sep : string) (d : list (string * pyval)) : string :=
                 match d with
                 | nil => ""
                 | cons (k, x) d' =>
                     sep ++ String "034" k ++ String "034" ": "
                       ++ json_dumps x ++ entries ", " d'
                 end) "" d ++ "}"
   end)%string.

(** A response with a JSON body. *)
Definition json_response (status : Z) (reason url : string) (body : pyval)
  : Response :=
  mkResponse status reason url (json_dumps body) (Some body).

(** The client, endpoint and responses of the concrete runs. *)
Definition alice : Client :=
  __init__ "alice" "secret" 45 default_base_url.
Definition template_url : string :=
  "https://api.thetradedesk.com/v3/campaign/template/7".
Definition authentication_url : string :=
  "https://api.thetradedesk.com/v3/authentication".
Definition template_ok : Response :=
  json_response 200 "OK" template_url (PDict [("CampaignId", PStr "7")]).
Definition token_expired : Response :=
  mkResponse 401 "Unauthorized" template_url "token expired" None.
Definition login_refused : Response :=
  mkResponse 403 "Forbidden" authentication_url "bad credentials" None.
Definition login_ok : Response :=
  json_response 200 "OK" authentication_url (PDict [("Token", PStr "t1")]).
Definition login_not_modified : Response :=
  mkResponse 304 "Not Modified" authentication_url "" None.
Definition login_multiple_choices : Response :=
  json_response 300 "Multiple Choices" authentication_url
    (PDict [("Token", PStr "t1")]).
Definition page_of (items : list pyval) : Response :=
  json_response 200 "OK" "https://api.thetradedesk.com/v3/sitelist/query/advertiser"
    (PDict [("Result", PList items); ("ResultCount", PInt (Z.of_nat (List.length items)))]).
Definition campaigns_of (items : list pyval) (version : Z) (more : bool)
  : Response :=
  json_response 200 "OK"
    "https://api.thetradedesk.com/v3/delta/campaign/query/advertiser"
    (PDict [("Campaigns", PList items);
            ("LastChangeTrackingVersion", PInt version);
            ("MoreCampaignsAvailable", PBool more)]).
Definition adgroups_of (items : list pyval) (version : Z) (more : bool)
  : Response :=
  json_response 200 "OK"
    "https://api.thetradedesk.com/v3/delta/adgroup/query/advertiser"
    (PDict [("AdGroups", PList items);
            ("LastChangeTrackingVersion", PInt version);
            ("MoreAdGroupsAvailable", PBool more)]).
Definition campaign_url : string := "https://api.thetradedesk.com/v3/campaign".
Definition no_content : Response :=
  mkResponse 204 "No Content" campaign_url "" None.
Definition login_null : Response :=
  json_response 200 "OK" authentication_url (PDict [("Token", PNone)]).
Definition login_without_token : Response :=
  json_response 200 "OK" authentication_url (PDict [("Message", PStr "ok")]).
Definition campaigns_without_flag : Response :=
  json_response 200 "OK"
    "https://api.thetradedesk.com/v3/delta/campaign/query/advertiser"
    (PDict [("Campaigns", PList [PStr "c1"]);
            ("LastChangeTrackingVersion", PInt 5)]).
Definition page_without_result : Response :=
  json_response 200 "OK"
    "https://api.thetradedesk.com/v3/sitelist/query/advertiser"
    (PDict [("Message", PStr "no such advertiser")]).

Section WithTransport.

(** [urllib.parse.urljoin], and the server the session talks to. *)
Variable urljoin : string -> string -> string.
Variable server : Server.

Definition _build_url (c : Client) (endpoint : string) : string :=
  urljoin (base_url c) (lstrip_slash endpoint).

(** [self.request(method, url, json=...)]: the request leaves with the
    session's current headers and is logged whether or not it is answered.
    This is what a session with [sendable] headers does; the refusal of
    other header values by [requests] is not represented. *)
Definition request (method url : string) (json : option pyval) : M Response :=
  fun w =>
    let req := mkRequest method url (headers (client w)) json in
    let w' := mkWorld (client w) (log w ++ [req]) in
    match server (log w) req with
    | Replied r => (Return r, w')
    | Unreachable e => (Raise (TransportError e), w')
    end.

(** The setter of the [token] property. *)
Definition token_setter (new_token : pyval) : M unit :=
  c <- get_client ;;
  put_client
    (mkClient (base_url c) (_login c) (_password c) (token_expires_in c)
       new_token
       (dict_update (headers c) [("TTD-Auth", new_token)])).

Definition _refresh_token (expires_in : Z) : M unit :=
  c <- get_client ;;
  let data := [("Login", PStr (_login c));
               ("Password", PStr (_password c));
               ("TokenExpirationInMinutes", PInt expires_in)] in
  resp <- request "POST" (_build_url c "authentication") (Some (PDict data)) ;;
  match raise_for_status resp with
  | Some err =>
      if is_auth_failure resp then
        raise (TTDApiPermissionsError
                 (err ++ String "010" "" ++ text resp) resp)
      else
        raise (TTDApiError (text resp) resp)
  | None =>
      body <- response_json resp ;;
      tok <- lift (py_getitem body "Token") ;;
      token_setter tok
  end.

(** The getter of the [token] property. *)
Definition token : M pyval :=
  c <- get_client ;;
  (if is_None (_token c) then _refresh_token (token_expires_in c) else ret tt) ;;
  c' <- get_client ;;
  ret (_token c').

Definition _request (method url : string) (json : option pyval) : M Response :=
  resp <- request method url json ;;
  match raise_for_status resp with
  | Some err =>
      if is_auth_failure resp then
        _refresh_token _refresh_token_default_expires_in ;;
        resp2 <- request method url json ;;
        match raise_for_status resp2 with
        | Some err2 =>
            raise (TTDApiError (err2 ++ String "010" "" ++ text resp2) resp2)
        | None => ret resp2
        end
      else
        raise (TTDApiError (err ++ String "010" "" ++ text resp) resp)
  | None => ret resp
  end.

Definition get (endpoint : string) (json : option pyval) : M pyval :=
  c <- get_client ;;
  resp <- _request "GET" (_build_url c endpoint) json ;;
  response_json resp.

Definition post (endpoint : string) (json : option pyval) : M pyval :=
  c <- get_client ;;
  resp <- _request "POST" (_build_url c endpoint) json ;;
  response_json resp.

Definition put (endpoint : string) (json : option pyval) : M pyval :=
  c <- get_client ;;
  resp <- _request "PUT" (_build_url c endpoint) json ;;
  response_json resp.

(** The [while True:] loop of [post_paginated], entered with
    [paging_params['PageStartIndex'] = start] already merged into
    [json_payload].  One unit of [fuel] is one turn of the loop. *)
Fixpoint post_paginated_loop (fuel : nat) (endpoint : string)
    (page_size : Z) (stream_items : bool) (consume : Consumer)
    (start : Z) (json_payload : dict) (w : World)
  : list page_event * outcome * dict * World :=
  match fuel with
  | O => ([], OutOfFuel, json_payload, w)
  | S fuel' =>
      match post endpoint (Some (PDict json_payload)) w with
      | (Raise e, w1) =>
          ([Called json_payload (Raise e)], Raised e, json_payload, w1)
      | (Return resp, w1) =>
          let call := Called json_payload (Return resp) in
          (* the yields: every item of resp['Result'], or resp itself *)
          let yields :=
            if stream_items then
              match andthen (py_getitem resp "Result") py_iter with
              | Raise e => (Raise e, [], json_payload)
              | Return items =>
                  (Return resp, map Yielded items,
                   consume_all consume items json_payload)
              end
            else
              (Return (fst (consume resp json_payload)), [Yielded resp],
               snd (consume resp json_payload)) in
          match yields with
          | (Raise e, ys, payload1) => (call :: ys, Raised e, payload1, w1)
          | (Return resp1, ys, payload1) =>
              (* len(resp['Result']) < page_size *)
              match andthen (py_getitem resp1 "Result") py_len with
              | Raise e => (call :: ys, Raised e, payload1, w1)
              | Return n =>
                  if n <? page_size then
                    (call :: ys, Exhausted, payload1, w1)
                  else
                    let payload2 :=
                      dict_update payload1
                        (paging_params (start + page_size) page_size) in
                    let '(evs, out, payload3, w2) :=
                      post_paginated_loop fuel' endpoint page_size
                        stream_items consume (start + page_size) payload2 w1 in
                    (call :: ys ++ evs, out, payload3, w2)
              end
          end
      end
  end.

Definition post_paginated (fuel : nat) (endpoint : string)
    (json_payload : dict) (page_start_index page_size : Z)
    (stream_items : bool) (consume : Consumer) (w : World)
  : list page_event * outcome * dict * World :=
  post_paginated_loop fuel endpoint page_size stream_items consume
    page_start_index
    (dict_update json_payload (paging_params page_start_index page_size)) w.

Definition _post_delta_endpoint (endpoint : string) (json_payload : dict)
    (entity : string) : M delta_page :=
  resp <- post endpoint (Some (PDict json_payload)) ;;
  items <- lift (andthen (py_getitem resp entity) py_iter) ;;
  version <- lift (py_getitem resp "LastChangeTrackingVersion") ;;
  more <- lift (py_getitem resp ("More" ++ entity ++ "Available")) ;;
  ret (items, version, more).

Definition _fetch_one_delta_campaign_for_advertiser
    (advertiser_id last_change_tracking_version : pyval) : M delta_page :=
  let payload := [("AdvertiserId", advertiser_id);
                  ("ReturnEntireCampaign", PBool true);
                  ("LastChangeTrackingVersion", last_change_tracking_version)] in
  _post_delta_endpoint "delta/campaign/query/advertiser" payload "Campaigns".

Definition _fetch_one_delta_adgroup_for_advertiser
    (advertiser_id last_change_tracking_version : pyval) : M delta_page :=
  let payload := [("AdvertiserId", advertiser_id);
                  ("ReturnEntireAdgroup", PBool true);
                  ("LastChangeTrackingVersion", last_change_tracking_version)] in
  _post_delta_endpoint "delta/adgroup/query/advertiser" payload "AdGroups".

(** The [while more_data:] loop shared by the two delta generators, which
    differ only in the page fetcher they call. *)
Fixpoint delta_more (fuel : nat) (fetch_one : pyval -> M delta_page)
    (new_tracking_version more_data : pyval) (w : World)
  : list delta_event * outcome * World :=
  if py_truthy more_data then
    match fuel with
    | O => ([], OutOfFuel, w)
    | S fuel' =>
        match fetch_one new_tracking_version w with
        | (Raise e, w1) =>
            ([Called new_tracking_version (Raise e)], Raised e, w1)
        | (Return (items, version, more), w1) =>
            let '(evs, out, w2) :=
              delta_more fuel' fetch_one version more w1 in
            (Called new_tracking_version (Return (items, version, more))
               :: map (fun item => Yielded (item, version)) items ++ evs,
             out, w2)
        end
    end
  else ([], Exhausted, w).

(** The body shared by the two delta generators: the first page, whose
    tracking version is yielded even when the page is empty, then the loop. *)
Definition fetch_all_delta (fuel : nat) (fetch_one : pyval -> M delta_page)
    (last_change_tracking_version : pyval) (w : World)
  : list delta_event * outcome * World :=
  match fetch_one last_change_tracking_version w with
  | (Raise e, w1) =>
      ([Called last_change_tracking_version (Raise e)], Raised e, w1)
  | (Return (items, version, more), w1) =>
      let first :=
        match items with
        | [] => [Yielded (PNone, version)]
        | item :: rest =>
            Yielded (item, version)
              :: map (fun item' => Yielded (item', version)) rest
        end in
      let '(evs, out, w2) := delta_more fuel fetch_one version more w1 in
      (Called last_change_tracking_version (Return (items, version, more))
         :: first ++ evs,
       out, w2)
  end.

Definition fetch_all_delta_campaigns_for_advertiser (fuel : nat)
    (advertiser_id last_change_tracking_version : pyval) (w : World)
  : list delta_event * outcome * World :=
  fetch_all_delta fuel (_fetch_one_delta_campaign_for_advertiser advertiser_id)
    last_change_tracking_version w.

Definition fetch_all_delta_adgroups_for_advertiser (fuel : nat)
    (advertiser_id last_change_tracking_version : pyval) (w : World)
  : list delta_event * outcome * World :=
  fetch_all_delta fuel (_fetch_one_delta_adgroup_for_advertiser advertiser_id)
    last_change_tracking_version w.

(** *** The shortcut methods of [TTDClient]

    [get_sitelist] and [get_campaign_template] take the identifier as the
    text that [str.format] prints for it.  The keyword arguments of the two
    streaming shortcuts are [page_start_index] and [page_size], each given
    or left to the default of [post_paginated] (0 and 100). *)

Definition create_campaign (data : pyval) : M pyval :=
  post "/campaign" (Some data).

Definition create_adgroup (data : pyval) : M pyval :=
  post "/adgroup" (Some data).

Definition update_adgroup (data : pyval) : M pyval :=
  post "/adgroup" (Some data).

Definition update_campaign (data : pyval) : M pyval :=
  put "/campaign" (Some data).

Definition get_sitelist (id_ : string) : M pyval :=
  get ("/sitelist/" ++ id_) None.

Definition get_campaign_template (campaign_id : string) : M pyval :=
  get ("campaign/template/" ++ campaign_id) None.

Definition default_page_start_index : Z := 0.
Definition default_page_size : Z := 100.

Definition get_all_sitelists (fuel : nat) (json_payload : dict)
    (page_start_index page_size : option Z) (consume : Consumer) (w : World)
  : list page_event * outcome * dict * World :=
  post_paginated fuel "/sitelist/query/advertiser" json_payload
    (match page_start_index with Some i => i | None => default_page_start_index end)
    (match page_size with Some n => n | None => default_page_size end)
    true consume w.

Definition get_all_advertisers (fuel : nat) (json_payload : dict)
    (page_start_index page_size : option Z) (consume : Consumer) (w : World)
  : list page_event * outcome * dict * World :=
  post_paginated fuel "/advertiser/query/partner" json_payload
    (match page_start_index with Some i => i | None => default_page_start_index end)
    (match page_size with Some n => n | None => default_page_size end)
    true consume w.

Definition get_delta_sitelists (fuel : nat) (data : dict) (consume : Consumer)
    (w : World) : list page_event * outcome * dict * World :=
  post_paginated fuel "/delta/sitelist/query/advertiser" data
    default_page_start_index default_page_size false consume w.

(** *** Names for what the statements below talk about *)

(** The client after [self.token = new_token]. *)
Definition install (new_token : pyval) (c : Client) : Client :=
  mkClient (base_url c) (_login c) (_password c) (token_expires_in c)
    new_token (dict_update (headers c) [("TTD-Auth", new_token)]).

(** The credential that a request of this client carries. *)
Definition auth_header (c : Client) : option pyval :=
  dict_get "TTD-Auth" (headers c).

(** The request that [_refresh_token expires_in] sends. *)
Definition refresh_request (c : Client) (expires_in : Z) : Request :=
  mkRequest "POST" (_build_url c "authentication") (headers c)
    (Some (PDict [("Login", PStr (_login c));
                  ("Password", PStr (_password c));
                  ("TokenExpirationInMinutes", PInt expires_in)])).

(** The message of the [TTDApiError] and [TTDApiPermissionsError] that are
    formatted as [err] and the body on two lines. *)
Definition error_and_body (r : Response) : string :=
  http_error_msg r ++ String "010" "" ++ text r.

(** The token carried by the body of an authentication response. *)
Definition token_of (r : Response) : result pyval :=
  match resp_json r with
  | Some body => py_getitem body "Token"
  | None => Raise JSONDecodeError
  end.

(** The world after one more request has been sent. *)
Definition sent (req : Request) (w : World) : World :=
  mkWorld (client w) (log w ++ [req]).

(** The page as [post_paginated] finds it when it resumes after its yields:
    in page mode the consumer has held it in the meantime. *)
Definition page_seen (stream_items : bool) (consume : Consumer)
    (resp : pyval) (payload : dict) : pyval :=
  if stream_items then resp else fst (consume resp payload).


(** The client with another configured token lifetime. *)
Definition with_expires_in (e : Z) (c : Client) : Client :=
  mkClient (base_url c) (_login c) (_password c) e (_token c) (headers c).

(** The items that iterating the [Result] of a page produces, none when the
    page has no [Result] that can be iterated. *)
Definition items_of (page : pyval) : list pyval :=
  match andthen (py_getitem page "Result") py_iter with
  | Return items => items
  | Raise _ => []
  end.

(** [n] slashes. *)
Definition slashes (n : nat) : string :=
  string_of_list_ascii (repeat "/"%char n).


(** The "more" flag of a delta page. *)
Definition flag_of (page : delta_page) : pyval := snd page.

(** The world of the same client configured with another token lifetime. *)
Definition reconfigure (e : Z) (w : World) : World :=
  mkWorld (with_expires_in e (client w)) (log w).

(** What [post_paginated] yields for a page whose [Result] is [items]. *)
Definition page_yields (stream_items : bool) (resp : pyval)
    (items : list pyval) : list page_event :=
  if stream_items then map Yielded items else [Yielded resp].

(** The payload as the consumer leaves it after those yields. *)
Definition payload_after (stream_items : bool) (consume : Consumer)
    (resp : pyval) (items : list pyval) (payload : dict) : dict :=
  if stream_items then consume_all consume items payload
  else snd (consume resp payload).

(** The request that [post] sends first. *)
Definition post_request (c : Client) (endpoint : string) (body : dict) : Request :=
  mkRequest "POST" (_build_url c endpoint) (headers c) (Some (PDict body)).

(** The parts of a drained [post_paginated]: what happened, how it ended,
    the caller's payload dict and the world afterwards. *)
Definition page_trace (r : list page_event * outcome * dict * World)
  : list page_event := fst (fst (fst r)).
Definition page_outcome (r : list page_event * outcome * dict * World)
  : outcome := snd (fst (fst r)).
Definition page_payload (r : list page_event * outcome * dict * World)
  : dict := snd (fst r).
Definition page_world (r : list page_event * outcome * dict * World)
  : World := snd r.

(** The parts of a drained delta generator. *)
Definition delta_trace (r : list delta_event * outcome * World)
  : list delta_event := fst (fst r).
Definition delta_outcome (r : list delta_event * outcome * World)
  : outcome := snd (fst r).
Definition delta_world (r : list delta_event * outcome * World)
  : World := snd r.

(** The pages that the fetches of a delta trace returned, in order. *)
Fixpoint pages (tr : list delta_event) : list delta_page :=
  match tr with
  | [] => []
  | Called _ (Return page) :: tr' => page :: pages tr'
  | _ :: tr' => pages tr'
  end.

(** The items of a page, each with the page's tracking version. *)
Definition pairs_of (page : delta_page) : list (pyval * pyval) :=
  let '(items, version, _) := page in map (fun item => (item, version)) items.

(** The same for the first page, which surfaces its version even when it
    has no item. *)
Definition first_pairs_of (page : delta_page) : list (pyval * pyval) :=
  let '(items, version, _) := page in
  match items with
  | [] => [(PNone, version)]
  | _ => map (fun item => (item, version)) items
  end.

(** A delta trace is chained from [latest], the tracking version and "more"
    flag of the page fetched last (if any), when every fetch is made because
    that flag was true and with that version, and every pair yielded carries
    that version; a fetch that raises ends the trace. *)
Fixpoint chained (latest : option (pyval * pyval)) (tr : list delta_event)
  : Prop :=
  match tr with
  | [] => True
  | Called arg res :: tr' =>
      match latest with
      | Some (version, more) => arg = version /\ py_truthy more = true
      | None => True
      end
      /\ match res with
         | Return (_, version', more') => chained (Some (version', more')) tr'
         | Raise _ => tr' = []
         end
  | Yielded (_, version') :: tr' =>
      match latest with
      | Some (version, _) => version' = version
      | None => False
      end
      /\ chained latest tr'
  end.

(** A response that carries one page of a paginated endpoint. *)
Definition is_page (r : Response) (items : list pyval) : Prop :=
  is_http_error r = false
  /\ exists body, resp_json r = Some body /\ result_list body = Some items.

(** A response that carries one page of the delta endpoint of [entity]. *)
Definition is_delta_page (entity : string) (r : Response)
    (items : list pyval) (version more : pyval) : Prop :=
  is_http_error r = false
  /\ exists body,
      resp_json r = Some body
      /\ py_getitem body entity = Return (PList items)
      /\ py_getitem body "LastChangeTrackingVersion" = Return version
      /\ py_getitem body ("More" ++ entity ++ "Available") = Return more.

(** The body that [_fetch_one_delta_campaign_for_advertiser] posts. *)
Definition campaign_query (advertiser_id version : pyval) : dict :=
  [("AdvertiserId", advertiser_id);
   ("ReturnEntireCampaign", PBool true);
   ("LastChangeTrackingVersion", version)].

(** The body that [_fetch_one_delta_adgroup_for_advertiser] posts. *)
Definition adgroup_query (advertiser_id version : pyval) : dict :=
  [("AdvertiserId", advertiser_id);
   ("ReturnEntireAdgroup", PBool true);
   ("LastChangeTrackingVersion", version)].

(* ------------------------------------------------------------------ *)
(** ** Dictionaries, strings and status codes *)

Lemma dict_get_set_same (k : string) (v : pyval) (d : dict) :
  dict_get k (dict_set k v d) = Some v.
Proof.
  induction d as [|[k' v'] d IH]; simpl.
  - now rewrite String.eqb_refl.
  - destruct (String.eqb k k') eqn:E; simpl; rewrite ?String.eqb_refl, ?E; auto.
Qed.

Lemma dict_get_set_other (k k' : string) (v : pyval) (d : dict) :
  String.eqb k k' = false ->
  dict_get k (dict_set k' v d) = dict_get k d.
Proof.
  intros Hk. induction d as [|[k0 v0] d IH]; simpl.
  - now rewrite Hk.
  - destruct (String.eqb k' k0) eqn:E; simpl.
    + apply String.eqb_eq in E. subst k0. now rewrite Hk.
    + destruct (String.eqb k k0); auto.
Qed.



(** After [d.update(paging_params)] the body carries both paging fields. *)
Lemma paging_params_merged (d : dict) (start page_size : Z) :
  dict_get "PageStartIndex" (dict_update d (paging_params start page_size))
    = Some (PInt start)
  /\ dict_get "PageSize" (dict_update d (paging_params start page_size))
    = Some (PInt page_size).
Proof.
  unfold dict_update, paging_params; simpl. split.
  - rewrite dict_get_set_other by reflexivity. apply dict_get_set_same.
  - apply dict_get_set_same.
Qed.

(** Keys other than the two paging fields are left as they were. *)
Lemma paging_params_frame (d : dict) (start page_size : Z) (k : string) :
  String.eqb k "PageStartIndex" = false ->
  String.eqb k "PageSize" = false ->
  dict_get k (dict_update d (paging_params start page_size)) = dict_get k d.
Proof.
  intros H1 H2. unfold dict_update, paging_params; simpl.
  now rewrite !dict_get_set_other.
Qed.

Lemma lstrip_slash_slash (e : string) :
  lstrip_slash (String "/" e) = lstrip_slash e.
Proof. reflexivity. Qed.

Lemma lstrip_slash_head (e : string) :
  String.get 0 (lstrip_slash e) <> Some "/"%char.
Proof.
  induction e as [|c e IH]; simpl.
  - discriminate.
  - destruct (Ascii.eqb c "/") eqn:E; auto.
    simpl. intros H. injection H as ->. discriminate.
Qed.

Lemma lstrip_slash_idempotent (e : string) :
  lstrip_slash (lstrip_slash e) = lstrip_slash e.
Proof.
  induction e as [|c e IH]; simpl; auto.
  destruct (Ascii.eqb c "/") eqn:E; auto. simpl. now rewrite E.
Qed.

Lemma append_not_empty (a b : string) (c : ascii) :
  String.eqb (a ++ String c b) "" = false.
Proof. destruct a; reflexivity. Qed.

(** [raise_for_status] raises exactly on the statuses 400 to 599. *)
Lemma raise_for_status_eq (r : Response) :
  raise_for_status r
    = if is_http_error r then Some (http_error_msg r) else None.
Proof.
  unfold raise_for_status, http_error_msg, is_http_error.
  destruct (400 <=? status_code r) eqn:E1, (status_code r <? 500) eqn:E2,
    (500 <=? status_code r) eqn:E3, (status_code r <? 600) eqn:E4;
    cbn [andb]; try reflexivity; try lia;
    change (" Client Error: " ++ ?x)%string with (String " " ("Client Error: " ++ x));
    change (" Server Error: " ++ ?x)%string with (String " " ("Server Error: " ++ x));
    now rewrite append_not_empty.
Qed.

Lemma is_auth_failure_http_error (r : Response) :
  is_auth_failure r = true -> is_http_error r = true.
Proof.
  unfold is_auth_failure, is_http_error. intros H.
  apply orb_true_iff in H as [H|H]; apply Z.eqb_eq in H; rewrite H; reflexivity.
Qed.

Lemma is_http_error_range (r : Response) :
  is_http_error r = true <-> 400 <= status_code r < 600.
Proof. unfold is_http_error. rewrite andb_true_iff. lia. Qed.

(* ------------------------------------------------------------------ *)
(** ** The token manager *)

Ltac run := unfold bind, ret, raise, lift, get_client, put_client; simpl.

Lemma request_eq (method url : string) (json : option pyval) (w : World) :
  request method url json w
  = (match server (log w) (mkRequest method url (headers (client w)) json) with
     | Replied r => Return r
     | Unreachable e => Raise (TransportError e)
     end,
     sent (mkRequest method url (headers (client w)) json) w).
Proof. unfold request, sent. destruct (server _ _); reflexivity. Qed.

Lemma token_setter_eq (t : pyval) (w : World) :
  token_setter t w = (Return tt, mkWorld (install t (client w)) (log w)).
Proof. reflexivity. Qed.

(** What [_refresh_token] does, by the answer of the authentication
    endpoint. *)
Lemma _refresh_token_eq (expires_in : Z) (w : World) :
  _refresh_token expires_in w
  = let req := refresh_request (client w) expires_in in
    match server (log w) req with
    | Unreachable e => (Raise (TransportError e), sent req w)
    | Replied ra =>
        if is_http_error ra then
          (Raise (if is_auth_failure ra
                  then TTDApiPermissionsError (error_and_body ra) ra
                  else TTDApiError (text ra) ra),
           sent req w)
        else
          match token_of ra with
          | Return t =>
              (Return tt, mkWorld (install t (client w)) (log w ++ [req]))
          | Raise e => (Raise e, sent req w)
          end
    end.
Proof.
  unfold _refresh_token. run. rewrite request_eq. fold (refresh_request (client w) expires_in).
  destruct (server (log w) (refresh_request (client w) expires_in)) as [ra|e];
    [|reflexivity].
  rewrite raise_for_status_eq. destruct (is_http_error ra).
  - destruct (is_auth_failure ra); reflexivity.
  - unfold response_json, token_of. destruct (resp_json ra) as [body|]; run;
      [|reflexivity].
    destruct (py_getitem body "Token"); reflexivity.
Qed.

(** A refresh sends exactly one request, whatever comes back. *)
Lemma _refresh_token_log (expires_in : Z) (w : World) :
  log (snd (_refresh_token expires_in w))
  = log w ++ [refresh_request (client w) expires_in].
Proof.
  rewrite _refresh_token_eq. cbv zeta.
  destruct (server _ _) as [ra|e]; [|reflexivity].
  destruct (is_http_error ra); [reflexivity|].
  destruct (token_of ra); reflexivity.
Qed.

(** The getter does nothing when a token is there. *)
Lemma token_present (w : World) :
  is_None (_token (client w)) = false -> token w = (Return (_token (client w)), w).
Proof. intros H. unfold token. run. rewrite H. reflexivity. Qed.

(* ------------------------------------------------------------------ *)
(** ** The request executor *)

(** What [_request] does, by the answers of the server. *)
Lemma _request_eq (method url : string) (json : option pyval) (w : World) :
  _request method url json w
  = let req1 := mkRequest method url (headers (client w)) json in
    match server (log w) req1 with
    | Unreachable e => (Raise (TransportError e), sent req1 w)
    | Replied r1 =>
        if is_http_error r1 then
          if is_auth_failure r1 then
            match _refresh_token _refresh_token_default_expires_in (sent req1 w) with
            | (Raise e, w2) => (Raise e, w2)
            | (Return _, w2) =>
                let req2 := mkRequest method url (headers (client w2)) json in
                (match server (log w2) req2 with
                 | Unreachable e => Raise (TransportError e)
                 | Replied r2 =>
                     if is_http_error r2
                     then Raise (TTDApiError (error_and_body r2) r2)
                     else Return r2
                 end, sent req2 w2)
            end
          else (Raise (TTDApiError (error_and_body r1) r1), sent req1 w)
        else (Return r1, sent req1 w)
    end.
Proof.
  unfold _request. unfold bind at 1. rewrite request_eq. cbv zeta.
  destruct (server (log w) _) as [r1|e]; [|reflexivity].
  rewrite raise_for_status_eq. destruct (is_http_error r1); [|reflexivity].
  destruct (is_auth_failure r1); [|reflexivity].
  unfold bind at 1.
  destruct (_refresh_token _ _) as [[u|e] w2]; [|reflexivity].
  unfold bind. rewrite request_eq.
  destruct (server (log w2) _) as [r2|e]; [|reflexivity].
  rewrite raise_for_status_eq. destruct (is_http_error r2); reflexivity.
Qed.

(** Every call of [_request] begins by sending the request itself, under
    the headers the session has at that moment. *)
Lemma _request_log_head (method url : string) (json : option pyval) (w : World) :
  exists rest,
    log (snd (_request method url json w))
    = log w ++ mkRequest method url (headers (client w)) json :: rest.
Proof.
  rewrite _request_eq. cbv zeta.
  set (req1 := mkRequest method url (headers (client w)) json).
  destruct (server (log w) req1) as [r1|e]; [|exists []; reflexivity].
  destruct (is_http_error r1); [|exists []; reflexivity].
  destruct (is_auth_failure r1); [|exists []; reflexivity].
  pose proof (_refresh_token_log _refresh_token_default_expires_in (sent req1 w)) as Hlog.
  destruct (_refresh_token _ _) as [[u|e] w2]; simpl in Hlog |- *.
  - eexists. rewrite Hlog. rewrite <- !app_assoc. simpl. reflexivity.
  - eexists. rewrite Hlog. rewrite <- !app_assoc. simpl. reflexivity.
Qed.

(** The three verbs leave the world as [_request] leaves it. *)
Lemma verb_world (verb : string) (endpoint : string) (json : option pyval) (w : World) :
  snd ((c <- get_client ;;
        resp <- _request verb (_build_url c endpoint) json ;;
        response_json resp) w)
  = snd (_request verb (_build_url (client w) endpoint) json w).
Proof.
  run. destruct (_request _ _ _ w) as [[resp|e] w1]; simpl; [|reflexivity].
  unfold response_json. destruct (resp_json resp); reflexivity.
Qed.

(** A fresh client sends its first request with no credential and without
    having asked for a token. *)
Lemma fresh_get_log_head (login password base endpoint : string) (e : Z)
    (json : option pyval) :
  exists rest,
    log (snd (get endpoint json (mkWorld (__init__ login password e base) [])))
    = mkRequest "GET" (_build_url (__init__ login password e base) endpoint) [] json
        :: rest.
Proof.
  unfold get. rewrite verb_world.
  destruct (_request_log_head "GET"
              (_build_url (__init__ login password e base) endpoint) json
              (mkWorld (__init__ login password e base) [])) as [rest H].
  exists rest. exact H.
Qed.

(** C7 (as amended).  When the authentication endpoint answers a refresh
    with an error status (400..599), the refresh raises, having sent that
    one request and changed nothing in the client: [TTDApiPermissionsError]
    on 401 and 403, [TTDApiError] on the others, each carrying the response
    and so its status and body.  A status outside 400..599 is no failure:
    the token is then read from the body. *)
Theorem refresh_rejected (expires_in : Z) (w : World) (ra : Response) :
  server (log w) (refresh_request (client w) expires_in) = Replied ra ->
  (is_auth_failure ra = true ->
     _refresh_token expires_in w
     = (Raise (TTDApiPermissionsError (error_and_body ra) ra),
        sent (refresh_request (client w) expires_in) w))
  /\ (is_http_error ra = true -> is_auth_failure ra = false ->
       _refresh_token expires_in w
       = (Raise (TTDApiError (text ra) ra),
          sent (refresh_request (client w) expires_in) w))
  /\ (is_http_error ra = false ->
       forall t, token_of ra = Return t ->
       _refresh_token expires_in w
       = (Return tt,
          mkWorld (install t (client w))
            (log w ++ [refresh_request (client w) expires_in]))).
Proof.
  intros H. rewrite _refresh_token_eq. cbv zeta. rewrite H. repeat split.
  - intros A. now rewrite (is_auth_failure_http_error _ A), A.
  - intros E A. now rewrite E, A.
  - intros E t T. now rewrite E, T.
Qed.

(** C10.  The refresh that follows a 401 or 403 asks for a token of 90
    minutes whatever lifetime the client was configured with, and [_request]
    behaves the same under every configured lifetime; the getter of [token],
    when no token is there, asks for the configured lifetime. *)
Theorem reauth_ignores_configured_lifetime :
  (forall method url json w r1,
      server (log w) (mkRequest method url (headers (client w)) json)
      = Replied r1 ->
      is_auth_failure r1 = true ->
      exists rest,
        log (snd (_request method url json w))
        = log w ++ mkRequest method url (headers (client w)) json
                  :: refresh_request (client w) 90 :: rest)
  /\ (forall method url json w e,
        _request method url json (reconfigure e w)
        = (fst (_request method url json w),
           reconfigure e (snd (_request method url json w))))
  /\ (forall w, _token (client w) = PNone ->
        log (snd (token w))
        = log w ++ [refresh_request (client w) (token_expires_in (client w))])
  /\ (forall c x,
        req_json (refresh_request c x)
        = Some (PDict [("Login", PStr (_login c));
                       ("Password", PStr (_password c));
                       ("TokenExpirationInMinutes", PInt x)])).
Proof.
  assert (R : forall x e w,
             _refresh_token x (reconfigure e w)
             = (fst (_refresh_token x w), reconfigure e (snd (_refresh_token x w)))).
  { intros x e w. rewrite !_refresh_token_eq. cbv zeta.
    change (refresh_request (client (reconfigure e w)) x)
      with (refresh_request (client w) x).
    change (log (reconfigure e w)) with (log w).
    destruct (server _ _) as [ra|err]; [|reflexivity].
    destruct (is_http_error ra); [reflexivity|].
    destruct (token_of ra); reflexivity. }
  repeat split.
  - intros method url json w r1 H A.
    rewrite _request_eq. cbv zeta.
    rewrite H, (is_auth_failure_http_error _ A), A.
    pose proof (_refresh_token_log _refresh_token_default_expires_in
                  (sent (mkRequest method url (headers (client w)) json) w)) as L.
    destruct (_refresh_token _ _) as [[u|e] w2]; simpl in L |- *;
      rewrite <- app_assoc in L; simpl in L; rewrite L.
    + eexists. rewrite <- app_assoc. reflexivity.
    + exists []. reflexivity.
  - intros method url json w e. rewrite !_request_eq. cbv zeta.
    change (headers (client (reconfigure e w))) with (headers (client w)).
    change (log (reconfigure e w)) with (log w).
    set (req1 := mkRequest method url (headers (client w)) json).
    destruct (server (log w) req1) as [r1|err]; [|reflexivity].
    destruct (is_http_error r1); [|reflexivity].
    destruct (is_auth_failure r1); [|reflexivity].
    change (sent req1 (reconfigure e w)) with (reconfigure e (sent req1 w)).
    rewrite R. destruct (_refresh_token _ (sent req1 w)) as [[u|err] w2]; reflexivity.
  - intros w H. unfold token. run. rewrite H. simpl.
    pose proof (_refresh_token_log (token_expires_in (client w)) w) as L.
    destruct (_refresh_token _ w) as [[u|err] w2]; exact L.
Qed.

(* ------------------------------------------------------------------ *)
(** ** Pagination *)

Lemma post_eq (endpoint : string) (json : option pyval) (w : World) :
  post endpoint json w
  = match _request "POST" (_build_url (client w) endpoint) json w with
    | (Return resp, w1) =>
        (match resp_json resp with
         | Some v => Return v
         | None => Raise JSONDecodeError
         end, w1)
    | (Raise e, w1) => (Raise e, w1)
    end.
Proof.
  unfold post. run. destruct (_request _ _ _ w) as [[resp|e] w1]; [|reflexivity].
  unfold response_json. destruct (resp_json resp); reflexivity.
Qed.

(** A POST that is answered at once with a body that decodes. *)
Lemma post_replied (endpoint : string) (body : dict) (w : World)
    (r : Response) (v : pyval) :
  server (log w) (post_request (client w) endpoint body) = Replied r ->
  is_http_error r = false ->
  resp_json r = Some v ->
  post endpoint (Some (PDict body)) w
  = (Return v, sent (post_request (client w) endpoint body) w).
Proof.
  intros H E J. rewrite post_eq, _request_eq. cbv zeta.
  fold (post_request (client w) endpoint body). now rewrite H, E, J.
Qed.

Lemma called_args_app {C R Y} (a b : list (event C R Y)) :
  called_args (a ++ b) = called_args a ++ called_args b.
Proof.
  induction a as [|[arg res|y] a IH]; simpl; auto. now rewrite IH.
Qed.

Lemma yielded_app {C R Y} (a b : list (event C R Y)) :
  yielded (a ++ b) = yielded a ++ yielded b.
Proof.
  induction a as [|[arg res|y] a IH]; simpl; auto. now rewrite IH.
Qed.

Lemma called_args_yields {C R Y Z} (f : Z -> Y) (l : list Z) :
  called_args (map (fun x => @Yielded C R Y (f x)) l) = [].
Proof. induction l; simpl; auto. Qed.

Lemma yielded_yields {C R Y Z} (f : Z -> Y) (l : list Z) :
  yielded (map (fun x => @Yielded C R Y (f x)) l) = map f l.
Proof. induction l; simpl; auto. now rewrite IHl. Qed.

Lemma page_yields_calls (stream_items : bool) (resp : pyval) (items : list pyval) :
  called_args (page_yields stream_items resp items) = [].
Proof.
  unfold page_yields. destruct stream_items; [|reflexivity].
  apply (called_args_yields (fun x => x)).
Qed.

Lemma page_yields_yielded (stream_items : bool) (resp : pyval) (items : list pyval) :
  yielded (page_yields stream_items resp items)
  = if stream_items then items else [resp].
Proof.
  unfold page_yields. destruct stream_items; [|reflexivity].
  rewrite (yielded_yields (fun x => x)). apply map_id.
Qed.

(** One turn of the loop on a page whose [Result] is a list. *)
Lemma loop_turn (fuel : nat) (endpoint : string) (page_size : Z)
    (stream_items : bool) (consume : Consumer) (start : Z) (payload : dict)
    (w w1 : World) (resp : pyval) (items : list pyval) :
  post endpoint (Some (PDict payload)) w = (Return resp, w1) ->
  result_list (page_seen stream_items consume resp payload) = Some items ->
  post_paginated_loop (S fuel) endpoint page_size stream_items consume
    start payload w
  = let ys := page_yields stream_items resp items in
    let payload1 := payload_after stream_items consume resp items payload in
    if Z.of_nat (List.length items) <? page_size then
      (Called payload (Return resp) :: ys, Exhausted, payload1, w1)
    else
      let '(evs, out, payload3, w2) :=
        post_paginated_loop fuel endpoint page_size stream_items consume
          (start + page_size)
          (dict_update payload1 (paging_params (start + page_size) page_size))
          w1 in
      (Called payload (Return resp) :: ys ++ evs, out, payload3, w2).
Proof.
  intros P L. cbn [post_paginated_loop]. rewrite P. cbv beta iota zeta.
  unfold result_list, page_seen in L. unfold page_yields, payload_after.
  destruct stream_items.
  - destruct (py_getitem resp "Result") as [[| | | |l|]|] eqn:G;
      try discriminate.
    injection L as ->. cbn [andthen py_iter]. cbv beta iota zeta.
    rewrite G. cbn [andthen py_len].
    destruct (Z.of_nat (List.length items) <? page_size); reflexivity.
  - cbv beta iota zeta.
    destruct (py_getitem (fst (consume resp payload)) "Result")
      as [[| | | |l|]|]; try discriminate.
    injection L as ->. cbn [andthen py_len].
    destruct (Z.of_nat (List.length items) <? page_size); reflexivity.
Qed.

(** A turn of the loop calls [post] once with the payload as it stands and
    then either ends the run or goes round again, one page further. *)
Lemma loop_cases (fuel : nat) (endpoint : string) (page_size : Z)
    (stream_items : bool) (consume : Consumer) (start : Z) (payload : dict)
    (w : World) :
  let res := fst (post endpoint (Some (PDict payload)) w) in
  let w1 := snd (post endpoint (Some (PDict payload)) w) in
  let run := post_paginated_loop (S fuel) endpoint page_size stream_items
               consume start payload w in
  exists ys payload1,
    called_args ys = []
    /\ ((exists out,
           out <> OutOfFuel
           /\ run = (Called payload res :: ys, out, payload1, w1))
        \/ run
           = let '(evs, out, payload3, w2) :=
               post_paginated_loop fuel endpoint page_size stream_items
                 consume (start + page_size)
                 (dict_update payload1
                    (paging_params (start + page_size) page_size)) w1 in
             (Called payload res :: ys ++ evs, out, payload3, w2)).
Proof.
  cbn [post_paginated_loop].
  destruct (post endpoint (Some (PDict payload)) w) as [[resp|e] w1]; cbn [fst snd].
  2:{ exists [], payload. split; [reflexivity|]. left. eexists. split; [|reflexivity].
      discriminate. }
  cbv beta iota zeta. destruct stream_items.
  - destruct (py_getitem resp "Result") as [v|e] eqn:G; cbn [andthen].
    2:{ exists [], payload. split; [reflexivity|]. left. eexists.
        split; [|reflexivity]. discriminate. }
    destruct (py_iter v) as [items|e] eqn:I.
    2:{ exists [], payload. split; [reflexivity|]. left. eexists.
        split; [|reflexivity]. discriminate. }
    cbv beta iota zeta. rewrite G. cbn [andthen].
    exists (map Yielded items), (consume_all consume items payload).
    split; [apply (called_args_yields (fun x => x))|].
    destruct (py_len v) as [n|e].
    + destruct (n <? page_size).
      * left. eexists. split; [|reflexivity]. discriminate.
      * right. reflexivity.
    + left. eexists. split; [|reflexivity]. discriminate.
  - exists [Yielded resp], (snd (consume resp payload)). split; [reflexivity|].
    destruct (andthen (py_getitem (fst (consume resp payload)) "Result") py_len)
      as [n|e].
    + destruct (n <? page_size).
      * left. eexists. split; [|reflexivity]. discriminate.
      * right. reflexivity.
    + left. eexists. split; [|reflexivity]. discriminate.
Qed.

(** The k-th call of [post] made by the loop carries the start index
    advanced k times by the page size, and the page size, whatever the
    consumer did to the payload in between. *)
Lemma loop_calls (fuel : nat) : forall (endpoint : string) (page_size : Z)
    (stream_items : bool) (consume : Consumer) (start : Z) (payload : dict)
    (w : World) (k : nat) (body : dict),
  dict_get "PageStartIndex" payload = Some (PInt start) ->
  dict_get "PageSize" payload = Some (PInt page_size) ->
  nth_error
    (called_args
       (page_trace
          (post_paginated_loop fuel endpoint page_size stream_items consume
             start payload w))) k = Some body ->
  dict_get "PageStartIndex" body = Some (PInt (start + Z.of_nat k * page_size))
  /\ dict_get "PageSize" body = Some (PInt page_size).
Proof.
  induction fuel as [|fuel IH]; intros endpoint page_size stream_items consume
    start payload w k body Hs Hp Hk.
  - destruct k; discriminate.
  - destruct (loop_cases fuel endpoint page_size stream_items consume start
                payload w) as (ys & payload1 & Hys & [(out & _ & E)|E]);
      rewrite E in Hk; clear E.
    + unfold page_trace in Hk. cbn [fst called_args] in Hk. rewrite Hys in Hk.
      destruct k as [|[|k]]; try discriminate.
      injection Hk as <-. rewrite Z.mul_0_l, Z.add_0_r. auto.
    + destruct (paging_params_merged payload1 (start + page_size) page_size)
        as [Hs' Hp'].
      specialize (IH endpoint page_size stream_items consume
                    (start + page_size)
                    (dict_update payload1
                       (paging_params (start + page_size) page_size))
                    (snd (post endpoint (Some (PDict payload)) w))).
      destruct (post_paginated_loop fuel _ _ _ _ _ _ _) as [[[evs out] p3] w2].
      unfold page_trace in Hk, IH. cbn [fst called_args] in Hk, IH.
      rewrite called_args_app, Hys in Hk. cbn [app] in Hk.
      destruct k as [|k].
      * injection Hk as <-. rewrite Z.mul_0_l, Z.add_0_r. auto.
      * cbn [nth_error] in Hk. destruct (IH k body Hs' Hp' Hk) as [H1 H2].
        split; [|exact H2]. rewrite H1. do 2 f_equal.
        rewrite Nat2Z.inj_succ, Z.mul_succ_l. lia.
Qed.

(* ------------------------------------------------------------------ *)
(** ** The token and the header that carries it stay in step *)







Lemma _post_delta_endpoint_world (endpoint : string) (payload : dict)
    (entity : string) (w : World) :
  snd (_post_delta_endpoint endpoint payload entity w)
  = snd (post endpoint (Some (PDict payload)) w).
Proof.
  unfold _post_delta_endpoint. run.
  destruct (post endpoint (Some (PDict payload)) w) as [[resp|e] w1];
    simpl; [|reflexivity].
  destruct (andthen (py_getitem resp entity) py_iter); simpl; [|reflexivity].
  destruct (py_getitem resp "LastChangeTrackingVersion"); simpl; [|reflexivity].
  destruct (py_getitem resp _); reflexivity.
Qed.



(* ------------------------------------------------------------------ *)
(** ** Delta-sync *)

(** One page fetched from a delta endpoint that answers at once. *)
Lemma _post_delta_endpoint_replied (endpoint : string) (payload : dict)
    (entity : string) (w : World) (r : Response) (items : list pyval)
    (version more : pyval) :
  server (log w) (post_request (client w) endpoint payload) = Replied r ->
  is_delta_page entity r items version more ->
  _post_delta_endpoint endpoint payload entity w
  = (Return (items, version, more),
     sent (post_request (client w) endpoint payload) w).
Proof.
  intros H (E & body & J & G1 & G2 & G3).
  unfold _post_delta_endpoint. unfold bind at 1.
  rewrite (post_replied endpoint payload w r body H E J).
  unfold bind, lift, ret. rewrite G1. cbn [andthen py_iter]. cbv beta iota.
  rewrite G2. cbv beta iota. rewrite G3. reflexivity.
Qed.

Lemma pages_yields (version : pyval) (items : list pyval) (evs : list delta_event) :
  pages (map (fun item => Yielded (item, version)) items ++ evs) = pages evs.
Proof. induction items; simpl; auto. Qed.

Lemma chained_yields (version more : pyval) (items : list pyval)
    (evs : list delta_event) :
  chained (Some (version, more)) evs ->
  chained (Some (version, more))
    (map (fun item => Yielded (item, version)) items ++ evs).
Proof. intros H. induction items; simpl; auto. Qed.

(** The loop is chained from the page it starts after. *)
Lemma delta_more_chained (fetch_one : pyval -> M delta_page) (fuel : nat) :
  forall version more w,
    chained (Some (version, more))
      (delta_trace (delta_more fuel fetch_one version more w)).
Proof.
  induction fuel as [|fuel IH]; intros version more w; cbn [delta_more];
    destruct (py_truthy more) eqn:T; try exact I.
  destruct (fetch_one version w) as [[[[items v'] more']|e] w1].
  - specialize (IH v' more' w1).
    destruct (delta_more fuel fetch_one v' more' w1) as [[evs out] w2].
    unfold delta_trace in *. cbn [fst] in *. cbn [chained].
    split; [auto|]. now apply chained_yields.
  - unfold delta_trace. cbn [fst chained]. auto.
Qed.

(** In the loop every page contributes its items, and nothing else. *)
Lemma delta_more_yielded (fetch_one : pyval -> M delta_page) (fuel : nat) :
  forall version more w,
    yielded (delta_trace (delta_more fuel fetch_one version more w))
    = flat_map pairs_of
        (pages (delta_trace (delta_more fuel fetch_one version more w))).
Proof.
  induction fuel as [|fuel IH]; intros version more w; cbn [delta_more];
    destruct (py_truthy more); try reflexivity.
  destruct (fetch_one version w) as [[[[items v'] more']|e] w1];
    [|reflexivity].
  specialize (IH v' more' w1).
  destruct (delta_more fuel fetch_one v' more' w1) as [[evs out] w2].
  unfold delta_trace in *. cbn [fst] in *. cbn [yielded pages flat_map].
  rewrite yielded_app, pages_yields, IH.
  now rewrite (yielded_yields (fun item => (item, v'))).
Qed.

(** The loop goes on exactly while the last page said there was more. *)
Lemma delta_more_continues (fetch_one : pyval -> M delta_page) (fuel : nat)
    (version more : pyval) (w : World) :
  (py_truthy more = true ->
   exists rest,
     delta_trace (delta_more (S fuel) fetch_one version more w)
     = Called version (fst (fetch_one version w)) :: rest)
  /\ (py_truthy more = false ->
      delta_more fuel fetch_one version more w = ([], Exhausted, w)).
Proof.
  split; intros T.
  - cbn [delta_more]. rewrite T.
    destruct (fetch_one version w) as [[[[items v'] more']|e] w1].
    + destruct (delta_more fuel fetch_one v' more' w1) as [[evs out] w2].
      eexists. reflexivity.
    + eexists. reflexivity.
  - destruct fuel; cbn [delta_more]; now rewrite T.
Qed.

(** The run as a whole is chained from nothing. *)
Lemma fetch_all_delta_chained (fetch_one : pyval -> M delta_page) (fuel : nat)
    (version : pyval) (w : World) :
  chained None (delta_trace (fetch_all_delta fuel fetch_one version w)).
Proof.
  unfold fetch_all_delta.
  destruct (fetch_one version w) as [[[[items v'] more']|e] w1].
  - pose proof (delta_more_chained fetch_one fuel v' more' w1) as D.
    destruct (delta_more fuel fetch_one v' more' w1) as [[evs out] w2].
    unfold delta_trace in *. cbn [fst] in *. cbn [chained]. split; [exact I|].
    destruct items as [|item rest].
    + cbn [app chained]. auto.
    + apply (chained_yields v' more' (item :: rest) evs D).
  - unfold delta_trace. cbn [fst chained]. auto.
Qed.

(** What the run yields: for the first page its items, or its bare version
    when it has none; for every later page its items, and nothing else. *)
Lemma fetch_all_delta_yielded (fetch_one : pyval -> M delta_page) (fuel : nat)
    (version : pyval) (w : World) :
  yielded (delta_trace (fetch_all_delta fuel fetch_one version w))
  = match pages (delta_trace (fetch_all_delta fuel fetch_one version w)) with
    | [] => []
    | page :: later => first_pairs_of page ++ flat_map pairs_of later
    end.
Proof.
  unfold fetch_all_delta.
  destruct (fetch_one version w) as [[[[items v'] more']|e] w1]; [|reflexivity].
  pose proof (delta_more_yielded fetch_one fuel v' more' w1) as D.
  destruct (delta_more fuel fetch_one v' more' w1) as [[evs out] w2].
  unfold delta_trace in *. cbn [fst] in *. cbn [yielded pages first_pairs_of].
  destruct items as [|item rest].
  - cbn [app yielded pages]. now rewrite D.
  - change (Yielded (item, v') :: map (fun item' => Yielded (item', v')) rest)
      with (map (fun item' : pyval => @Yielded pyval delta_page _ (item', v'))
              (item :: rest)).
    rewrite yielded_app, pages_yields, D.
    now rewrite (yielded_yields (fun item' => (item', v'))).
Qed.

(** One turn of the loop: after a page is fetched, the loop goes on from the
    version and the flag of that very page. *)
Lemma delta_more_turn (fetch_one : pyval -> M delta_page) (fuel : nat)
    (version more : pyval) (w : World) (items : list pyval)
    (version' more' : pyval) (w1 : World) :
  py_truthy more = true ->
  fetch_one version w = (Return (items, version', more'), w1) ->
  let rest := delta_more fuel fetch_one version' more' w1 in
  delta_more (S fuel) fetch_one version more w
  = (Called version (Return (items, version', more'))
       :: map (fun item => Yielded (item, version')) items ++ delta_trace rest,
     delta_outcome rest, delta_world rest).
Proof.
  intros T F rest. subst rest. cbn [delta_more]. rewrite T, F.
  now destruct (delta_more fuel fetch_one version' more' w1) as [[evs out] w2].
Qed.

(** The run enters the loop with the version and the flag of its first
    page. *)
Lemma fetch_all_delta_turn (fetch_one : pyval -> M delta_page) (fuel : nat)
    (version : pyval) (w : World) (items : list pyval)
    (version' more' : pyval) (w1 : World) :
  fetch_one version w = (Return (items, version', more'), w1) ->
  let rest := delta_more fuel fetch_one version' more' w1 in
  fetch_all_delta fuel fetch_one version w
  = (Called version (Return (items, version', more'))
       :: map Yielded (first_pairs_of (items, version', more'))
          ++ delta_trace rest,
     delta_outcome rest, delta_world rest).
Proof.
  intros F rest. subst rest. unfold fetch_all_delta. rewrite F.
  destruct (delta_more fuel fetch_one version' more' w1) as [[evs out] w2].
  unfold delta_trace, delta_outcome, delta_world. cbn [fst snd first_pairs_of].
  destruct items as [|item rest]; [reflexivity|].
  cbn [map]. now rewrite map_map.
Qed.

Lemma last_cons_default {A} (l : list A) :
  forall a d, last (a :: l) d = last l a.
Proof.
  induction l as [|b l IH]; intros a d; [reflexivity|].
  change (last (a :: b :: l) d) with (last (b :: l) d).
  now rewrite !IH.
Qed.

Lemma last_page_split (ps : list delta_page) :
  forall p, exists earlier page,
    p :: ps = earlier ++ [page]
    /\ flag_of page = last (map flag_of ps) (flag_of p).
Proof.
  induction ps as [|q ps IH]; intros p.
  - exists [], p. split; reflexivity.
  - destruct (IH q) as (earlier & page & E & F).
    exists (p :: earlier), page. split.
    + simpl. now rewrite E.
    + rewrite F. cbn [map]. now rewrite last_cons_default.
Qed.

(** How the loop ends: it is exhausted only when the flag of the page fetched
    last (the flag it was entered with, when it fetched none) is false; it
    is cut short by the fuel only when that flag is true, after as many
    pages as there was fuel; and an exception is that of the fetch made
    last. *)
Lemma delta_more_ending (fetch_one : pyval -> M delta_page) (fuel : nat) :
  forall version more w,
    let run := delta_more fuel fetch_one version more w in
    (delta_outcome run = Exhausted ->
     py_truthy (last (map flag_of (pages (delta_trace run))) more) = false)
    /\ (delta_outcome run = OutOfFuel ->
        py_truthy (last (map flag_of (pages (delta_trace run))) more) = true
        /\ List.length (pages (delta_trace run)) = fuel)
    /\ (forall e, delta_outcome run = Raised e ->
        exists earlier arg,
          delta_trace run = earlier ++ [Called arg (Raise e)]).
Proof.
  induction fuel as [|fuel IH]; intros version more w; cbn zeta;
    cbn [delta_more]; destruct (py_truthy more) eqn:T;
    unfold delta_trace, delta_outcome; cbn [fst snd pages map last List.length];
    try (split; [|split]; [intros H|intros H|intros e H];
         try discriminate H; auto; fail).
  destruct (fetch_one version w) as [[[[items v'] more']|e] w1].
  - destruct (IH v' more' w1) as (I1 & I2 & I3). cbn zeta in I1, I2, I3.
    destruct (delta_more fuel fetch_one v' more' w1) as [[evs out] w2].
    unfold delta_trace, delta_outcome in *. cbn [fst snd] in *.
    cbn [pages]. rewrite pages_yields. cbn [map List.length].
    rewrite last_cons_default.
    change (flag_of (items, v', more')) with more'.
    split; [exact I1|]. split.
    + intros H. destruct (I2 H) as [L N]. split; [exact L|now rewrite N].
    + intros e H. destruct (I3 e H) as (earlier & arg & E).
      exists (Called version (Return (items, v', more'))
                :: map (fun item => Yielded (item, v')) items ++ earlier), arg.
      rewrite E. cbn [app]. now rewrite <- app_assoc.
  - cbn [fst snd]. split; [|split]; [intros H|intros H|intros e' H];
      try discriminate H.
    injection H as ->. exists [], version. reflexivity.
Qed.

(** How a run ends: exhausted only after a page whose flag is false; cut
    short by the fuel only after a page whose flag is true, the first page
    and one page per unit of fuel having been fetched; and an exception is
    that of the fetch made last. *)
Lemma fetch_all_delta_ending (fetch_one : pyval -> M delta_page) (fuel : nat)
    (version : pyval) (w : World) :
  let run := fetch_all_delta fuel fetch_one version w in
  (delta_outcome run = Exhausted ->
   exists earlier page,
     pages (delta_trace run) = earlier ++ [page]
     /\ py_truthy (flag_of page) = false)
  /\ (delta_outcome run = OutOfFuel ->
      exists earlier page,
        pages (delta_trace run) = earlier ++ [page]
        /\ py_truthy (flag_of page) = true
        /\ List.length (pages (delta_trace run)) = S fuel)
  /\ (forall e, delta_outcome run = Raised e ->
      exists earlier arg,
        delta_trace run = earlier ++ [Called arg (Raise e)]).
Proof.
  cbn zeta.
  destruct (fetch_one version w) as [[[[items v'] more']|e] w1] eqn:F.
  - rewrite (fetch_all_delta_turn fetch_one fuel version w items v' more' w1 F).
    destruct (delta_more_ending fetch_one fuel v' more' w1) as (I1 & I2 & I3).
    cbn zeta in I1, I2, I3.
    remember (delta_more fuel fetch_one v' more' w1) as rest eqn:R.
    clear R. destruct rest as [[evs out] w2].
    unfold delta_trace, delta_outcome, delta_world in *. cbn [fst snd] in *.
    assert (P : pages (Called version (Return (items, v', more'))
                         :: map Yielded (first_pairs_of (items, v', more'))
                            ++ evs)
                = (items, v', more') :: pages evs).
    { cbn [pages]. f_equal. generalize (first_pairs_of (items, v', more')).
      intros l. induction l as [|[a b] l IHl]; simpl; auto. }
    rewrite P.
    destruct (last_page_split (pages evs) (items, v', more'))
      as (earlier & page & E & L).
    change (flag_of (items, v', more')) with more' in L.
    split; [|split].
    + intros H. exists earlier, page. split; [exact E|].
      rewrite L. now apply I1.
    + intros H. destruct (I2 H) as [T N]. exists earlier, page.
      split; [exact E|]. split; [now rewrite L|].
      cbn [List.length]. now rewrite N.
    + intros e H. destruct (I3 e H) as (earlier' & arg & E').
      exists (Called version (Return (items, v', more'))
                :: map Yielded (first_pairs_of (items, v', more'))
                   ++ earlier'), arg.
      rewrite E'. cbn [app]. now rewrite <- app_assoc.
  - unfold fetch_all_delta. rewrite F. unfold delta_trace, delta_outcome.
    cbn [fst snd]. split; [|split]; [intros H|intros H|intros e' H];
      try discriminate H.
    injection H as ->. exists [], version. reflexivity.
Qed.

(** [post] begins by sending its request. *)
Lemma post_log_head (endpoint : string) (body : dict) (w : World) :
  exists rest,
    log (snd (post endpoint (Some (PDict body)) w))
    = log w ++ post_request (client w) endpoint body :: rest.
Proof.
  unfold post. rewrite verb_world. apply _request_log_head.
Qed.

(** The loop only adds to the log. *)
Lemma loop_log_extends (fuel : nat) : forall (endpoint : string)
    (page_size : Z) (stream_items : bool) (consume : Consumer) (start : Z)
    (payload : dict) (w : World),
  exists more,
    log (page_world
           (post_paginated_loop fuel endpoint page_size stream_items consume
              start payload w))
    = log w ++ more.
Proof.
  induction fuel as [|fuel IH]; intros endpoint page_size stream_items consume
    start payload w.
  - exists []. simpl. now rewrite app_nil_r.
  - destruct (post_log_head endpoint payload w) as [rest P].
    destruct (loop_cases fuel endpoint page_size stream_items consume start
                payload w) as (ys & payload1 & _ & [(out & _ & E)|E]);
      rewrite E; clear E.
    + eexists. exact P.
    + destruct (IH endpoint page_size stream_items consume (start + page_size)
                  (dict_update payload1
                     (paging_params (start + page_size) page_size))
                  (snd (post endpoint (Some (PDict payload)) w))) as [more L].
      destruct (post_paginated_loop fuel _ _ _ _ _ _ _) as [[[evs out] p3] w2].
      unfold page_world in *. cbn [snd] in *. rewrite L, P.
      eexists. rewrite <- app_assoc. reflexivity.
Qed.

(** With fuel left, the loop calls [post] with the payload as it stands,
    which sends the corresponding request. *)
Lemma loop_head (fuel : nat) (endpoint : string) (page_size : Z)
    (stream_items : bool) (consume : Consumer) (start : Z) (payload : dict)
    (w : World) :
  exists res rest more,
    page_trace
      (post_paginated_loop (S fuel) endpoint page_size stream_items consume
         start payload w)
    = Called payload res :: rest
    /\ log (page_world
              (post_paginated_loop (S fuel) endpoint page_size stream_items
                 consume start payload w))
       = log w ++ post_request (client w) endpoint payload :: more.
Proof.
  destruct (post_log_head endpoint payload w) as [rest P].
  destruct (loop_cases fuel endpoint page_size stream_items consume start
              payload w) as (ys & payload1 & _ & [(out & _ & E)|E]);
    rewrite E; clear E.
  - do 3 eexists. split; [reflexivity|exact P].
  - destruct (loop_log_extends fuel endpoint page_size stream_items consume
                (start + page_size)
                (dict_update payload1
                   (paging_params (start + page_size) page_size))
                (snd (post endpoint (Some (PDict payload)) w))) as [more L].
    destruct (post_paginated_loop fuel _ _ _ _ _ _ _) as [[[evs out] p3] w2].
    unfold page_world, page_trace in *. cbn [fst snd] in *.
    do 3 eexists. split; [reflexivity|].
    rewrite L, P, <- app_assoc. reflexivity.
Qed.

(* ------------------------------------------------------------------ *)
(** ** More on the token manager and the executor *)

(** X1.  A refresh that raises, for whatever reason, has sent its one
    request and has left the client as it was: the token and the auth header
    are never changed by a failed refresh. *)
Theorem refresh_failure_changes_nothing (expires_in : Z) (w : World) (e : exn) :
  fst (_refresh_token expires_in w) = Raise e ->
  snd (_refresh_token expires_in w)
  = sent (refresh_request (client w) expires_in) w.
Proof.
  rewrite _refresh_token_eq. cbv zeta.
  destruct (server _ _) as [ra|err]; [|reflexivity].
  destruct (is_http_error ra); [reflexivity|].
  destruct (token_of ra); [discriminate|reflexivity].
Qed.

(** X2.  When the authentication endpoint answers without an error status,
    the refresh still raises unless the body is a JSON object with a
    [Token] entry: the decoding error when the body is not JSON,
    [KeyError] for [Token] when the object has no such entry, [TypeError]
    when the body is a list.  Whatever the entry holds is installed. *)
Theorem refresh_needs_a_token_entry (expires_in : Z) (w : World) (ra : Response) :
  server (log w) (refresh_request (client w) expires_in) = Replied ra ->
  is_http_error ra = false ->
  (resp_json ra = None ->
     fst (_refresh_token expires_in w) = Raise JSONDecodeError)
  /\ (forall d, resp_json ra = Some (PDict d) -> dict_get "Token" d = None ->
        fst (_refresh_token expires_in w) = Raise (KeyError "Token"))
  /\ (forall l, resp_json ra = Some (PList l) ->
        fst (_refresh_token expires_in w) = Raise TypeError)
  /\ (forall d t, resp_json ra = Some (PDict d) -> dict_get "Token" d = Some t ->
        _refresh_token expires_in w
        = (Return tt,
           mkWorld (install t (client w))
             (log w ++ [refresh_request (client w) expires_in]))).
Proof.
  intros H E. rewrite _refresh_token_eq. cbv zeta. rewrite H, E.
  unfold token_of. repeat split.
  - intros J. now rewrite J.
  - intros d J K. rewrite J. simpl. now rewrite K.
  - intros l J. now rewrite J.
  - intros d t J K. rewrite J. simpl. now rewrite K.
Qed.

(** X3.  The getter caches: once it has returned a token other than [None],
    calling it again returns the same token and sends nothing. *)
Theorem token_is_cached (w : World) (t : pyval) :
  fst (token w) = Return t ->
  is_None t = false ->
  token (snd (token w)) = (Return t, snd (token w)).
Proof.
  intros H N.
  assert (T : _token (client (snd (token w))) = t).
  { revert H. unfold token. run.
    destruct (is_None (_token (client w))); simpl.
    - destruct (_refresh_token _ w) as [[u|e] w1]; simpl; [|discriminate].
      now intros [= ->].
    - now intros [= ->]. }
  rewrite token_present; rewrite T; auto.
Qed.

(** X4.  A [Token] that is [null] is installed like any other, so the getter
    returns [None] without raising, the header is set to [None], and the
    token still counts as absent: the next call of the getter asks the
    authentication endpoint again. *)
Theorem null_token_is_not_cached (w : World) (ra : Response) :
  _token (client w) = PNone ->
  server (log w)
    (refresh_request (client w) (token_expires_in (client w))) = Replied ra ->
  is_http_error ra = false ->
  token_of ra = Return PNone ->
  let w1 := mkWorld (install PNone (client w))
              (log w ++ [refresh_request (client w)
                           (token_expires_in (client w))]) in
  token w = (Return PNone, w1)
  /\ auth_header (client w1) = Some PNone
  /\ log (snd (token w1))
     = log w1 ++ [refresh_request (client w1) (token_expires_in (client w1))].
Proof.
  intros N H E T w1. split; [|split].
  - unfold token. run. rewrite N. simpl. rewrite _refresh_token_eq. cbv zeta.
    now rewrite H, E, T.
  - unfold w1, auth_header, install, dict_update. simpl.
    apply dict_get_set_same.
  - unfold token. run.
    pose proof (_refresh_token_log (token_expires_in (client w1)) w1) as L.
    change (is_None (_token (client w1))) with true. cbv iota.
    destruct (_refresh_token _ w1) as [[u|err] w2]; exact L.
Qed.

(** X5.  What leaves [_request] is classified: a response it returns never
    has an error status; a [TTDApiError] it raises carries a response with
    an error status, and its message is the error and the body on two lines
    (the executor's own) or the body alone (a refresh refused with another
    status than 401 and 403); a [TTDApiPermissionsError] carries a 401 or
    403, which can only be the answer to the refresh. *)
Theorem request_outcomes_are_classified (method url : string)
    (json : option pyval) (w : World) :
  match fst (_request method url json w) with
  | Return r => is_http_error r = false
  | Raise (TTDApiError msg r) =>
      is_http_error r = true /\ (msg = error_and_body r \/ msg = text r)
  | Raise (TTDApiPermissionsError msg r) =>
      is_auth_failure r = true /\ msg = error_and_body r
      /\ server (log w ++ [mkRequest method url (headers (client w)) json])
           (refresh_request (client w) _refresh_token_default_expires_in)
         = Replied r
  | Raise _ => True
  end.
Proof.
  rewrite _request_eq. cbv zeta.
  set (req1 := mkRequest method url (headers (client w)) json).
  destruct (server (log w) req1) as [r1|err]; [|exact I].
  destruct (is_http_error r1) eqn:E1; [|exact E1].
  destruct (is_auth_failure r1) eqn:A1; [|simpl; auto].
  rewrite _refresh_token_eq. cbv zeta.
  change (log (sent req1 w)) with (log w ++ [req1]).
  change (client (sent req1 w)) with (client w).
  destruct (server (log w ++ [req1]) _) as [ra|err] eqn:S; [|exact I].
  destruct (is_http_error ra) eqn:Ea.
  - destruct (is_auth_failure ra) eqn:Aa; simpl; auto.
  - destruct (token_of ra) as [t|e] eqn:T.
    + cbn [fst].
      match goal with
      | |- context [server ?l ?q] => destruct (server l q) as [r2|err2]
      end; [|exact I].
      destruct (is_http_error r2) eqn:E2; auto.
    + cbn [fst]. unfold token_of in T.
      destruct (resp_json ra) as [body|]; [|injection T as <-; exact I].
      destruct body as [| | | | |d]; try (injection T as <-; exact I).
      simpl in T. destruct (dict_get "Token" d); [discriminate|].
      injection T as <-. exact I.
Qed.

(** X6.  [_request] never changes the base URL, the credentials or the
    configured lifetime of the client; the token and the header change only
    by the installation of a token, and not at all unless the first answer
    was a 401 or 403, in which case nothing else than the one request has
    been sent either. *)
Theorem request_touches_only_the_token (method url : string)
    (json : option pyval) (w : World) :
  let c := client w in
  let c' := client (snd (_request method url json w)) in
  base_url c' = base_url c
  /\ _login c' = _login c
  /\ _password c' = _password c
  /\ token_expires_in c' = token_expires_in c
  /\ (c' = c \/ exists t, c' = install t c)
  /\ (forall r1,
        server (log w) (mkRequest method url (headers c) json) = Replied r1 ->
        is_auth_failure r1 = false ->
        snd (_request method url json w)
        = sent (mkRequest method url (headers c) json) w).
Proof.
  intros c c'.
  assert (K : c' = c \/ exists t, c' = install t c).
  { subst c'. rewrite _request_eq. cbv zeta.
    set (req1 := mkRequest method url (headers (client w)) json).
    destruct (server (log w) req1) as [r1|err]; [|now left].
    destruct (is_http_error r1); [|now left].
    destruct (is_auth_failure r1); [|now left].
    rewrite _refresh_token_eq. cbv zeta.
    destruct (server (log (sent req1 w)) _) as [ra|err]; [|now left].
    destruct (is_http_error ra); [now left|].
    destruct (token_of ra) as [t|e]; [|now left].
    right. exists t. reflexivity. }
  repeat split; try (destruct K as [->|[t ->]]; reflexivity); [exact K|].
  intros r1 H A. rewrite _request_eq. cbv zeta. fold c. rewrite H, A.
  destruct (is_http_error r1); reflexivity.
Qed.


(** X8.  The three verbs decode the body of whatever response [_request]
    lets through: when a request is answered without an error status by a
    body that is not JSON (an empty 204, say), the verb raises the decoding
    error, although the request has been sent and accepted. *)
Theorem verbs_need_a_json_body (endpoint : string) (json : option pyval)
    (w : World) (r : Response) :
  is_http_error r = false ->
  resp_json r = None ->
  let req verb := mkRequest verb (_build_url (client w) endpoint)
                    (headers (client w)) json in
  (server (log w) (req "GET") = Replied r ->
     get endpoint json w = (Raise JSONDecodeError, sent (req "GET") w))
  /\ (server (log w) (req "POST") = Replied r ->
       post endpoint json w = (Raise JSONDecodeError, sent (req "POST") w))
  /\ (server (log w) (req "PUT") = Replied r ->
       put endpoint json w = (Raise JSONDecodeError, sent (req "PUT") w)).
Proof.
  intros E J req.
  assert (V : forall verb,
             server (log w) (req verb) = Replied r ->
             (c <- get_client ;;
              resp <- _request verb (_build_url c endpoint) json ;;
              response_json resp) w
             = (Raise JSONDecodeError, sent (req verb) w)).
  { intros verb H. run. rewrite _request_eq. cbv zeta. fold (req verb).
    rewrite H, E. unfold response_json. now rewrite J. }
  repeat split; intros H; apply V; exact H.
Qed.

(* ------------------------------------------------------------------ *)
(** ** More on pagination *)

Lemma consume_all_passive (items : list pyval) (payload : dict) :
  consume_all passive items payload = payload.
Proof. unfold consume_all. induction items; simpl; auto. Qed.

Lemma length_characters (s : string) :
  List.length
    (map (fun c => PStr (String c EmptyString)) (list_ascii_of_string s))
  = String.length s.
Proof. induction s; simpl; auto. Qed.

(** [len] and [iter] accept the same objects, and [len] counts what [iter]
    produces. *)
Lemma py_len_iter (v : pyval) :
  py_len v
  = match py_iter v with
    | Return items => Return (Z.of_nat (List.length items))
    | Raise e => Raise e
    end.
Proof.
  destruct v; simpl; try reflexivity.
  - now rewrite length_characters.
  - now rewrite length_map.
Qed.

Lemma getitem_len_iter (resp : pyval) :
  andthen (py_getitem resp "Result") py_len
  = match andthen (py_getitem resp "Result") py_iter with
    | Return items => Return (Z.of_nat (List.length items))
    | Raise e => Raise e
    end.
Proof.
  destruct (py_getitem resp "Result"); simpl; [apply py_len_iter|reflexivity].
Qed.

(** A turn of the loop for a consumer that only reads. *)
Lemma loop_passive (fuel : nat) (endpoint : string) (page_size : Z)
    (stream_items : bool) (start : Z) (payload : dict) (w : World) :
  post_paginated_loop (S fuel) endpoint page_size stream_items passive
    start payload w
  = match post endpoint (Some (PDict payload)) w with
    | (Raise e, w1) => ([Called payload (Raise e)], Raised e, payload, w1)
    | (Return resp, w1) =>
        let ys := if stream_items then map Yielded (items_of resp)
                  else [Yielded resp] in
        match andthen (py_getitem resp "Result") py_iter with
        | Raise e => (Called payload (Return resp) :: ys, Raised e, payload, w1)
        | Return items =>
            if Z.of_nat (List.length items) <? page_size then
              (Called payload (Return resp) :: ys, Exhausted, payload, w1)
            else
              let '(evs, out, payload3, w2) :=
                post_paginated_loop fuel endpoint page_size stream_items
                  passive (start + page_size)
                  (dict_update payload
                     (paging_params (start + page_size) page_size)) w1 in
              (Called payload (Return resp) :: ys ++ evs, out, payload3, w2)
        end
    end.
Proof.
  cbn [post_paginated_loop].
  destruct (post endpoint (Some (PDict payload)) w) as [[resp|e] w1];
    [|reflexivity].
  cbv beta iota zeta. unfold items_of. destruct stream_items.
  - destruct (andthen (py_getitem resp "Result") py_iter) as [items|e] eqn:I;
      [|reflexivity].
    cbv beta iota zeta. rewrite getitem_len_iter, I, consume_all_passive.
    reflexivity.
  - unfold passive. cbn [fst snd]. rewrite getitem_len_iter.
    destruct (andthen (py_getitem resp "Result") py_iter); reflexivity.
Qed.

(** X9.  For a consumer that only reads, streaming the items and yielding
    the pages are the same walk: the same calls of [post] with the same
    bodies, the same requests, the same ending and the same payload left to
    the caller; and the items streamed are, in order, what iterating the
    [Result] of each page yielded in page mode produces. *)
Theorem streaming_flattens_the_pages (fuel : nat) (endpoint : string)
    (payload : dict) (start page_size : Z) (w : World) :
  let items := post_paginated fuel endpoint payload start page_size true
                 passive w in
  let whole := post_paginated fuel endpoint payload start page_size false
                 passive w in
  yielded (page_trace items) = flat_map items_of (yielded (page_trace whole))
  /\ called_args (page_trace items) = called_args (page_trace whole)
  /\ page_outcome items = page_outcome whole
  /\ page_payload items = page_payload whole
  /\ page_world items = page_world whole.
Proof.
  unfold post_paginated.
  generalize (dict_update payload (paging_params start page_size)) as p.
  revert start w. induction fuel as [|fuel IH]; intros start w p.
  - repeat split.
  - rewrite !loop_passive.
    destruct (post endpoint (Some (PDict p)) w) as [[resp|e] w1];
      [|repeat split].
    cbv zeta.
    assert (Y : yielded (map (@Yielded dict pyval pyval) (items_of resp))
                = items_of resp).
    { rewrite (yielded_yields (fun x => x)). apply map_id. }
    assert (C : called_args (map (@Yielded dict pyval pyval) (items_of resp))
                = []).
    { apply (called_args_yields (fun x => x)). }
    destruct (andthen (py_getitem resp "Result") py_iter) as [l|e] eqn:I.
    2:{ unfold page_trace, page_outcome, page_payload, page_world.
        cbn [fst snd yielded called_args flat_map]. rewrite Y, C, app_nil_r.
        repeat split. }
    destruct (Z.of_nat (List.length l) <? page_size).
    + unfold page_trace, page_outcome, page_payload, page_world.
      cbn [fst snd yielded called_args flat_map]. rewrite Y, C, app_nil_r.
      repeat split.
    + specialize (IH (start + page_size) w1
                    (dict_update p (paging_params (start + page_size) page_size))).
      destruct (post_paginated_loop fuel endpoint page_size true passive _ _ w1)
        as [[[evs1 out1] p1] w2].
      destruct (post_paginated_loop fuel endpoint page_size false passive _ _ w1)
        as [[[evs2 out2] p2] w3].
      unfold page_trace, page_outcome, page_payload, page_world in *.
      cbn [fst snd] in *. destruct IH as (H1 & H2 & H3 & H4 & H5).
      cbn [yielded called_args flat_map app].
      rewrite yielded_app, called_args_app, Y, C, H1, H2.
      repeat split; auto.
Qed.

(** X10.  A page whose [Result] is missing or cannot be iterated ends the
    run with the exception of that lookup, and the two modes differ in what
    the caller has seen by then: streaming has yielded nothing of the page,
    page mode has already yielded the page itself. *)
Theorem page_without_result_ends_the_run (fuel : nat) (endpoint : string)
    (page_size start : Z) (consume : Consumer) (payload : dict)
    (w w1 : World) (resp : pyval) (e : exn) :
  post endpoint (Some (PDict payload)) w = (Return resp, w1) ->
  andthen (py_getitem resp "Result") py_iter = Raise e ->
  post_paginated_loop (S fuel) endpoint page_size true consume start payload w
  = ([Called payload (Return resp)], Raised e, payload, w1)
  /\ post_paginated_loop (S fuel) endpoint page_size false passive start
       payload w
     = ([Called payload (Return resp); Yielded resp], Raised e, payload, w1).
Proof.
  intros P I. split.
  - cbn [post_paginated_loop]. rewrite P. cbv beta iota zeta. now rewrite I.
  - rewrite loop_passive, P. cbv zeta. now rewrite I.
Qed.

Lemma getitem_len_nonneg (resp : pyval) (n : Z) :
  andthen (py_getitem resp "Result") py_len = Return n -> 0 <= n.
Proof.
  rewrite getitem_len_iter.
  destruct (andthen (py_getitem resp "Result") py_iter); [|discriminate].
  intros [= <-]. lia.
Qed.

(** The run ends by itself only on a page shorter than the page size, which
    must then be positive. *)
Lemma loop_exhausted (fuel : nat) : forall (endpoint : string) (page_size : Z)
    (stream_items : bool) (consume : Consumer) (start : Z) (payload : dict)
    (w : World),
  page_outcome
    (post_paginated_loop fuel endpoint page_size stream_items consume start
       payload w) = Exhausted ->
  0 < page_size.
Proof.
  induction fuel as [|fuel IH]; intros endpoint page_size stream_items consume
    start payload w; [discriminate|].
  cbn [post_paginated_loop].
  destruct (post endpoint (Some (PDict payload)) w) as [[resp|e] w1];
    [|discriminate].
  cbv beta iota zeta.
  assert (K : forall resp1 ys payload1,
             page_outcome
               match andthen (py_getitem resp1 "Result") py_len with
               | Return n =>
                   if n <? page_size
                   then (Called payload (Return resp) :: ys, Exhausted,
                         payload1, w1)
                   else
                     let '(evs, out, payload3, w2) :=
                       post_paginated_loop fuel endpoint page_size
                         stream_items consume (start + page_size)
                         (dict_update payload1
                            (paging_params (start + page_size) page_size))
                         w1 in
                     (Called payload (Return resp) :: ys ++ evs, out,
                      payload3, w2)
               | Raise e => (Called payload (Return resp) :: ys, Raised e,
                             payload1, w1)
               end = Exhausted -> 0 < page_size).
  { intros resp1 ys payload1.
    destruct (andthen (py_getitem resp1 "Result") py_len) as [n|e] eqn:L;
      [|discriminate].
    apply getitem_len_nonneg in L.
    destruct (n <? page_size) eqn:C.
    - intros _. apply Z.ltb_lt in C. lia.
    - specialize (IH endpoint page_size stream_items consume
                    (start + page_size)
                    (dict_update payload1
                       (paging_params (start + page_size) page_size)) w1).
      destruct (post_paginated_loop fuel _ _ _ _ _ _ _) as [[[evs out] p3] w2].
      exact IH. }
  destruct stream_items.
  - destruct (andthen (py_getitem resp "Result") py_iter) as [items|e];
      [apply K|discriminate].
  - apply K.
Qed.

(** X11.  With a page size of zero or less no page is ever short, so the
    generator never returns by itself: however far the consumer pulls, the
    run is still going or has been ended by an exception. *)
Theorem nonpositive_page_size_never_ends (fuel : nat) (endpoint : string)
    (payload : dict) (start page_size : Z) (stream_items : bool)
    (consume : Consumer) (w : World) :
  page_size <= 0 ->
  page_outcome
    (post_paginated fuel endpoint payload start page_size stream_items
       consume w) = OutOfFuel
  \/ exists e,
      page_outcome
        (post_paginated fuel endpoint payload start page_size stream_items
           consume w) = Raised e.
Proof.
  intros H. unfold post_paginated.
  destruct (page_outcome (post_paginated_loop fuel _ _ _ _ _ _ _)) as [|e|] eqn:O.
  - apply loop_exhausted in O. lia.
  - right. now exists e.
  - now left.
Qed.

(** For a consumer that only reads, the loop changes nothing in the payload
    but the two paging fields. *)
Lemma loop_frame (k : string) (fuel : nat) : forall (endpoint : string)
    (page_size : Z) (stream_items : bool) (start : Z) (payload : dict)
    (w : World),
  String.eqb k "PageStartIndex" = false ->
  String.eqb k "PageSize" = false ->
  let run := post_paginated_loop fuel endpoint page_size stream_items passive
               start payload w in
  Forall (fun body => dict_get k body = dict_get k payload)
    (called_args (page_trace run))
  /\ dict_get k (page_payload run) = dict_get k payload
  /\ (dict_get "PageSize" payload = Some (PInt page_size) ->
      dict_get "PageSize" (page_payload run) = Some (PInt page_size)).
Proof.
  induction fuel as [|fuel IH]; intros endpoint page_size stream_items start
    payload w K1 K2 run; subst run.
  - repeat split; auto; constructor.
  - rewrite loop_passive.
    destruct (post endpoint (Some (PDict payload)) w) as [[resp|e] w1].
    2:{ repeat split; auto; repeat constructor. }
    cbv zeta.
    assert (C : called_args
                  (if stream_items
                   then map (@Yielded dict pyval pyval) (items_of resp)
                   else [Yielded resp]) = []).
    { destruct stream_items; [|reflexivity].
      apply (called_args_yields (fun x => x)). }
    destruct (andthen (py_getitem resp "Result") py_iter) as [items|e].
    2:{ unfold page_trace, page_payload. cbn [fst snd called_args].
        rewrite C. repeat split; auto; repeat constructor. }
    destruct (Z.of_nat (List.length items) <? page_size).
    + unfold page_trace, page_payload. cbn [fst snd called_args].
      rewrite C. repeat split; auto; repeat constructor.
    + specialize (IH endpoint page_size stream_items (start + page_size)
                    (dict_update payload
                       (paging_params (start + page_size) page_size))
                    w1 K1 K2).
      cbv zeta in IH.
      destruct (post_paginated_loop fuel _ _ _ _ _ _ _) as [[[evs out] p3] w2].
      unfold page_trace, page_payload in *. cbn [fst snd called_args] in *.
      destruct IH as (F & G & P).
      rewrite paging_params_frame in F, G by assumption.
      rewrite called_args_app, C. cbn [app].
      repeat split; auto.
      intros _. apply P. apply paging_params_merged.
Qed.

(** X12.  [post_paginated] works on the caller's own dict.  For a consumer
    that only reads, every body sent agrees with the payload passed on every
    field other than [PageStartIndex] and [PageSize], and so does the dict
    the caller is left with, which (once the generator has started) now
    holds the page size, whether or not it did before. *)
Theorem paging_leaves_other_fields (fuel : nat) (endpoint : string)
    (payload : dict) (start page_size : Z) (stream_items : bool) (w : World)
    (k : string) :
  String.eqb k "PageStartIndex" = false ->
  String.eqb k "PageSize" = false ->
  let run := post_paginated (S fuel) endpoint payload start page_size
               stream_items passive w in
  Forall (fun body => dict_get k body = dict_get k payload)
    (called_args (page_trace run))
  /\ dict_get k (page_payload run) = dict_get k payload
  /\ dict_get "PageSize" (page_payload run) = Some (PInt page_size).
Proof.
  intros K1 K2 run. subst run. unfold post_paginated.
  destruct (loop_frame k (S fuel) endpoint page_size stream_items start
              (dict_update payload (paging_params start page_size)) w K1 K2)
    as (F & G & P).
  rewrite paging_params_frame in F, G by assumption.
  repeat split; auto. apply P. apply paging_params_merged.
Qed.

(** [post] sends one, two or three requests. *)
Lemma post_log_bounds (endpoint : string) (json : option pyval) (w : World) :
  exists extra,
    log (snd (post endpoint json w)) = log w ++ extra
    /\ (1 <= List.length extra <= 3)%nat.
Proof.
  unfold post. rewrite verb_world, _request_eq. cbv zeta.
  set (req1 := mkRequest "POST" _ _ json).
  destruct (server (log w) req1) as [r1|err];
    [|exists [req1]; split; [reflexivity|simpl; lia]].
  destruct (is_http_error r1);
    [|exists [req1]; split; [reflexivity|simpl; lia]].
  destruct (is_auth_failure r1);
    [|exists [req1]; split; [reflexivity|simpl; lia]].
  pose proof (_refresh_token_log _refresh_token_default_expires_in
                (sent req1 w)) as L.
  destruct (_refresh_token _ _) as [[u|e] w2]; simpl in L |- *;
    rewrite L, <- !app_assoc; simpl; eexists; (split; [reflexivity|simpl; lia]).
Qed.

(** X13.  A paginated run only adds to the log of requests, at least one
    and at most three for every call of [post] it makes (the call, and when
    it is answered 401 or 403 one login and one retry). *)
Theorem pagination_request_bounds (fuel : nat) (endpoint : string)
    (payload : dict) (start page_size : Z) (stream_items : bool)
    (consume : Consumer) (w : World) :
  let run := post_paginated fuel endpoint payload start page_size
               stream_items consume w in
  exists sent_now,
    log (page_world run) = log w ++ sent_now
    /\ (List.length (called_args (page_trace run)) <= List.length sent_now
        <= 3 * List.length (called_args (page_trace run)))%nat.
Proof.
  unfold post_paginated.
  generalize (dict_update payload (paging_params start page_size)) as p.
  revert start w. induction fuel as [|fuel IH]; intros start w p.
  - exists []. simpl. rewrite app_nil_r. split; [reflexivity|lia].
  - destruct (post_log_bounds endpoint (Some (PDict p)) w) as (extra & P & B).
    destruct (loop_cases fuel endpoint page_size stream_items consume start
                p w) as (ys & payload1 & Hys & [(out & _ & E)|E]);
      cbv zeta; rewrite E; clear E.
    + exists extra. unfold page_world, page_trace. cbn [fst snd called_args].
      rewrite Hys. split; [exact P|simpl; lia].
    + destruct (IH (start + page_size)
                  (snd (post endpoint (Some (PDict p)) w))
                  (dict_update payload1
                     (paging_params (start + page_size) page_size)))
        as (more & L & B').
      destruct (post_paginated_loop fuel _ _ _ _ _ _ _) as [[[evs out] p3] w2].
      unfold page_world, page_trace in *. cbn [fst snd called_args] in *.
      exists (extra ++ more). rewrite L, P, app_assoc.
      split; [reflexivity|].
      rewrite called_args_app, Hys, length_app. simpl. lia.
Qed.

(* ------------------------------------------------------------------ *)
(** ** The shortcut methods *)

Lemma lstrip_slash_slashes (n : nat) (e : string) :
  lstrip_slash (slashes n ++ e) = lstrip_slash e.
Proof. unfold slashes. induction n; simpl; auto. Qed.

(** X18.  Only leading slashes are stripped from an endpoint: it is what is
    left of it preceded by the slashes removed, and an endpoint that begins
    with another character is kept whole, with the slashes inside it and at
    its end.  So the URL built depends on the endpoint only through what is
    left of it: putting any number of slashes before that gives the same
    URL. *)
Theorem only_leading_slashes_are_stripped (endpoint : string) :
  (exists n,
      endpoint = (slashes n ++ lstrip_slash endpoint)%string
      /\ (String.length endpoint
          = n + String.length (lstrip_slash endpoint))%nat)
  /\ (forall c rest,
        Ascii.eqb c "/" = false ->
        lstrip_slash (String c rest) = String c rest)
  /\ (forall c n,
        _build_url c (slashes n ++ lstrip_slash endpoint)
        = _build_url c endpoint).
Proof.
  split; [|split].
  - induction endpoint as [|c e IH]; [exists 0%nat; auto|].
    simpl. destruct (Ascii.eqb c "/") eqn:E.
    + apply Ascii.eqb_eq in E. subst c. destruct IH as (n & H1 & H2).
      exists (S n). unfold slashes in *. simpl. split; congruence.
    + exists 0%nat. auto.
  - intros c rest E. simpl. now rewrite E.
  - intros c n. unfold _build_url.
    now rewrite lstrip_slash_slashes, lstrip_slash_idempotent.
Qed.

(** X16.  What the one-line shortcuts send first: [create_campaign],
    [create_adgroup] and also [update_adgroup] a POST, [update_campaign] a
    PUT, the two getters a GET; each to the endpoint joined to the base URL
    without its leading slash, under the session's headers, with the data
    as the body.  [update_adgroup] is [create_adgroup] in all respects. *)
Theorem shortcuts_first_request (data : pyval) (id_ : string) (w : World) :
  let to verb path body :=
    mkRequest verb (urljoin (base_url (client w)) path) (headers (client w))
      body in
  (exists rest, log (snd (create_campaign data w))
                = log w ++ to "POST" "campaign" (Some data) :: rest)
  /\ (exists rest, log (snd (create_adgroup data w))
                   = log w ++ to "POST" "adgroup" (Some data) :: rest)
  /\ update_adgroup data w = create_adgroup data w
  /\ (exists rest, log (snd (update_campaign data w))
                   = log w ++ to "PUT" "campaign" (Some data) :: rest)
  /\ (exists rest, log (snd (get_sitelist id_ w))
                   = log w ++ to "GET" ("sitelist/" ++ id_)%string None
                       :: rest)
  /\ (exists rest, log (snd (get_campaign_template id_ w))
                   = log w ++ to "GET" ("campaign/template/" ++ id_)%string
                       None :: rest).
Proof.
  intros to.
  assert (V : forall verb endpoint json,
             exists rest,
               log (snd ((c <- get_client ;;
                          resp <- _request verb (_build_url c endpoint) json ;;
                          response_json resp) w))
               = log w ++ to verb (lstrip_slash endpoint) json :: rest).
  { intros. rewrite verb_world. apply _request_log_head. }
  repeat split.
  - apply (V "POST" "/campaign").
  - apply (V "POST" "/adgroup").
  - apply (V "PUT" "/campaign").
  - apply (V "GET" ("/sitelist/" ++ id_)%string).
  - apply (V "GET" ("campaign/template/" ++ id_)%string).
Qed.

(** X17.  The paginating shortcuts post at once: [get_all_sitelists] to the
    sitelist query, [get_all_advertisers] to the advertiser query, both
    streaming the items, and [get_delta_sitelists] to the delta sitelist
    query, yielding the pages; each sends the payload with the paging fields
    merged into it.  Their k-th call carries the start index advanced k
    times by the page size, with 0 and 100 for what the caller did not
    give.  [get_delta_sitelists] takes no paging arguments: whatever
    [PageStartIndex] and [PageSize] its caller put in the data are
    overwritten, and it always walks from 0 in pages of 100. *)
Theorem paginating_shortcuts_defaults (fuel : nat) (payload : dict)
    (page_start_index page_size : option Z) (consume : Consumer) (w : World) :
  let start := match page_start_index with Some i => i | None => 0 end in
  let size := match page_size with Some n => n | None => 100 end in
  let first endpoint s n :=
    mkRequest "POST" (urljoin (base_url (client w)) endpoint)
      (headers (client w))
      (Some (PDict (dict_update payload (paging_params s n)))) in
  let sitelists := get_all_sitelists in
  let advertisers := get_all_advertisers in
  let deltas := get_delta_sitelists in
  (exists res rest more,
      page_trace (sitelists (S fuel) payload page_start_index page_size
                    consume w)
      = Called (dict_update payload (paging_params start size)) res :: rest
      /\ log (page_world (sitelists (S fuel) payload page_start_index
                            page_size consume w))
         = log w ++ first "sitelist/query/advertiser" start size :: more)
  /\ (exists res rest more,
        page_trace (advertisers (S fuel) payload page_start_index page_size
                      consume w)
        = Called (dict_update payload (paging_params start size)) res :: rest
        /\ log (page_world (advertisers (S fuel) payload page_start_index
                              page_size consume w))
           = log w ++ first "advertiser/query/partner" start size :: more)
  /\ (exists res rest more,
        page_trace (deltas (S fuel) payload consume w)
        = Called (dict_update payload (paging_params 0 100)) res :: rest
        /\ log (page_world (deltas (S fuel) payload consume w))
           = log w ++ first "delta/sitelist/query/advertiser" 0 100 :: more)
  /\ (sitelists fuel payload page_start_index page_size consume w
      = post_paginated fuel "/sitelist/query/advertiser" payload start size
          true consume w
      /\ advertisers fuel payload page_start_index page_size consume w
         = post_paginated fuel "/advertiser/query/partner" payload start size
             true consume w
      /\ deltas fuel payload consume w
         = post_paginated fuel "/delta/sitelist/query/advertiser" payload 0
             100 false consume w)
  /\ (forall k body,
        (nth_error
           (called_args
              (page_trace
                 (sitelists fuel payload page_start_index page_size
                    consume w))) k = Some body ->
         dict_get "PageStartIndex" body
         = Some (PInt (start + Z.of_nat k * size))
         /\ dict_get "PageSize" body = Some (PInt size))
        /\ (nth_error
              (called_args
                 (page_trace
                    (advertisers fuel payload page_start_index page_size
                       consume w))) k = Some body ->
            dict_get "PageStartIndex" body
            = Some (PInt (start + Z.of_nat k * size))
            /\ dict_get "PageSize" body = Some (PInt size))
        /\ (nth_error
              (called_args (page_trace (deltas fuel payload consume w))) k
            = Some body ->
            dict_get "PageStartIndex" body = Some (PInt (Z.of_nat k * 100))
            /\ dict_get "PageSize" body = Some (PInt 100))).
Proof.
  intros start size first sitelists advertisers deltas.
  assert (H : forall endpoint s n stream_items,
             exists res rest more,
               page_trace (post_paginated (S fuel) endpoint payload s n
                             stream_items consume w)
               = Called (dict_update payload (paging_params s n)) res :: rest
               /\ log (page_world (post_paginated (S fuel) endpoint payload
                                     s n stream_items consume w))
                  = log w ++ first (lstrip_slash endpoint) s n :: more).
  { intros. unfold post_paginated. apply loop_head. }
  assert (G : forall endpoint s n stream_items k body,
             nth_error
               (called_args
                  (page_trace
                     (post_paginated fuel endpoint payload s n stream_items
                        consume w))) k = Some body ->
             dict_get "PageStartIndex" body = Some (PInt (s + Z.of_nat k * n))
             /\ dict_get "PageSize" body = Some (PInt n)).
  { intros endpoint s n stream_items k body K.
    destruct (paging_params_merged payload s n) as [Hs Hp].
    exact (loop_calls fuel endpoint n stream_items consume s _ w k body
             Hs Hp K). }
  split; [apply (H "/sitelist/query/advertiser"%string)|].
  split; [apply (H "/advertiser/query/partner"%string)|].
  split; [apply (H "/delta/sitelist/query/advertiser"%string)|].
  split.
  - unfold sitelists, advertisers, deltas, get_all_sitelists,
      get_all_advertisers, get_delta_sitelists. fold start size.
    repeat split.
  - intros k body. split; [|split]; intros K; apply (G _ _ _ _ _ _ K).
Qed.

(* ------------------------------------------------------------------ *)
(** ** More on delta-sync *)

(** X14.  A delta page is read in the order items, tracking version, "more"
    flag, and the first of the three that the body lacks raises [KeyError]
    for it.  The page is then lost as a whole: a first page with items and a
    version but no flag makes the campaign generator raise before it has
    yielded anything. *)
Theorem delta_page_needs_all_three_fields (endpoint : string) (payload : dict)
    (entity : string) (w : World) (r : Response) (body : dict) :
  server (log w) (post_request (client w) endpoint payload) = Replied r ->
  is_http_error r = false ->
  resp_json r = Some (PDict body) ->
  let flag := ("More" ++ entity ++ "Available")%string in
  (dict_get entity body = None ->
     fst (_post_delta_endpoint endpoint payload entity w)
     = Raise (KeyError entity))
  /\ (forall items,
        dict_get entity body = Some (PList items) ->
        dict_get "LastChangeTrackingVersion" body = None ->
        fst (_post_delta_endpoint endpoint payload entity w)
        = Raise (KeyError "LastChangeTrackingVersion"))
  /\ (forall items version,
        dict_get entity body = Some (PList items) ->
        dict_get "LastChangeTrackingVersion" body = Some version ->
        dict_get flag body = None ->
        fst (_post_delta_endpoint endpoint payload entity w)
        = Raise (KeyError flag))
  /\ (forall fuel advertiser_id last items version,
        endpoint = "delta/campaign/query/advertiser" ->
        payload = campaign_query advertiser_id last ->
        entity = "Campaigns" ->
        dict_get entity body = Some (PList items) ->
        dict_get "LastChangeTrackingVersion" body = Some version ->
        dict_get flag body = None ->
        fetch_all_delta_campaigns_for_advertiser fuel advertiser_id last w
        = ([Called last (Raise (KeyError flag))], Raised (KeyError flag),
           sent (post_request (client w) endpoint payload) w)).
Proof.
  intros H E J flag.
  assert (P : post endpoint (Some (PDict payload)) w
              = (Return (PDict body),
                 sent (post_request (client w) endpoint payload) w))
    by (now apply post_replied with (r := r)).
  assert (K : forall items version,
             dict_get entity body = Some (PList items) ->
             dict_get "LastChangeTrackingVersion" body = Some version ->
             dict_get flag body = None ->
             _post_delta_endpoint endpoint payload entity w
             = (Raise (KeyError flag),
                sent (post_request (client w) endpoint payload) w)).
  { intros items version G1 G2 G3. unfold _post_delta_endpoint.
    unfold bind at 1. rewrite P. unfold bind, lift, ret, py_getitem.
    rewrite G1. cbn [andthen py_iter]. cbv beta iota. rewrite G2.
    cbv beta iota. fold flag. now rewrite G3. }
  repeat split.
  - intros G1. unfold _post_delta_endpoint. unfold bind at 1. rewrite P.
    unfold bind, lift, ret, py_getitem. now rewrite G1.
  - intros items G1 G2. unfold _post_delta_endpoint. unfold bind at 1.
    rewrite P. unfold bind, lift, ret, py_getitem. rewrite G1.
    cbn [andthen py_iter]. cbv beta iota. now rewrite G2.
  - intros items version G1 G2 G3. now rewrite (K items version G1 G2 G3).
  - intros fuel advertiser_id last items version -> -> -> G1 G2 G3.
    unfold fetch_all_delta_campaigns_for_advertiser, fetch_all_delta,
      _fetch_one_delta_campaign_for_advertiser.
    fold (campaign_query advertiser_id last).
    now rewrite (K items version G1 G2 G3).
Qed.

(* ------------------------------------------------------------------ *)
(** ** The executor, the carrier of the token and the URL *)


Lemma lstrip_slash_keeps (e : string) :
  String.get 0 e <> Some "/"%char -> lstrip_slash e = e.
Proof.
  destruct e as [|c e]; [reflexivity|]. simpl. intros H.
  destruct (Ascii.eqb c "/") eqn:E; [|reflexivity].
  apply Ascii.eqb_eq in E. subst c. now elim H.
Qed.

Lemma lstrip_slash_decomposed (e : string) :
  exists k, e = (slashes k ++ lstrip_slash e)%string.
Proof.
  induction e as [|c e IH]; [exists 0%nat; reflexivity|].
  simpl. destruct (Ascii.eqb c "/") eqn:E.
  - apply Ascii.eqb_eq in E. subst c. destruct IH as [k H].
    exists (S k). unfold slashes in *. simpl. congruence.
  - exists 0%nat. reflexivity.
Qed.


(** C9.  An endpoint resolves to the same URL with or without leading
    slashes, however many.  The slashes are stripped and nothing else is:
    the endpoint is what is left of it preceded by slashes, what is left
    does not begin with a slash, and it is that rest which [urljoin] joins
    to the base.  So a path without a leading slash is joined to the base
    as it is, and with a slash before it is joined to the base just the
    same. *)
Theorem build_url_leading_separator (c : Client) (endpoint : string) (n : nat) :
  _build_url c (String "/" endpoint) = _build_url c endpoint
  /\ _build_url c (string_of_list_ascii (repeat "/"%char n) ++ endpoint)
     = _build_url c endpoint
  /\ _build_url c endpoint = urljoin (base_url c) (lstrip_slash endpoint)
  /\ lstrip_slash (lstrip_slash endpoint) = lstrip_slash endpoint
  /\ String.get 0 (lstrip_slash endpoint) <> Some "/"%char
  /\ (exists k, endpoint = (slashes k ++ lstrip_slash endpoint)%string)
  /\ (String.get 0 endpoint <> Some "/"%char ->
      _build_url c endpoint = urljoin (base_url c) endpoint
      /\ _build_url c (String "/" endpoint) = urljoin (base_url c) endpoint
      /\ _build_url c (slashes n ++ endpoint) = urljoin (base_url c) endpoint).
Proof.
  unfold _build_url. repeat split.
  - induction n as [|n IH]; simpl; auto.
  - apply lstrip_slash_idempotent.
  - apply lstrip_slash_head.
  - apply lstrip_slash_decomposed.
  - now rewrite lstrip_slash_keeps.
  - simpl. now rewrite lstrip_slash_keeps.
  - now rewrite lstrip_slash_slashes, lstrip_slash_keeps.
Qed.


End WithTransport.

(* ------------------------------------------------------------------ *)
(** * Pagination and delta-sync against the server *)

Section Claims.

Variable urljoin : string -> string -> string.

(** Three pages of two, two and one items, two items asked for per page,
    items streamed: three requests, at 0, 2 and 4, and five items. *)
Lemma three_pages (c : Client) (endpoint : string) (payload : dict)
    (consume : Consumer) (fuel : nat) (r1 r2 r3 : Response)
    (i1 i2 i3 i4 i5 : pyval) :
  is_page r1 [i1; i2] -> is_page r2 [i3; i4] -> is_page r3 [i5] ->
  let run := post_paginated urljoin (scripted [r1; r2; r3]) (3 + fuel)
               endpoint payload 0 2 true consume (mkWorld c []) in
  yielded (page_trace run) = [i1; i2; i3; i4; i5]
  /\ page_outcome run = Exhausted
  /\ map (body_field "PageStartIndex") (log (page_world run))
     = [Some (PInt 0); Some (PInt 2); Some (PInt 4)]
  /\ map (body_field "PageSize") (log (page_world run))
     = [Some (PInt 2); Some (PInt 2); Some (PInt 2)].
Proof.
  intros (E1 & b1 & J1 & L1) (E2 & b2 & J2 & L2) (E3 & b3 & J3 & L3) run.
  subst run. unfold post_paginated.
  change (3 + fuel)%nat with (S (S (S fuel))).
  set (srv := scripted [r1; r2; r3]).
  set (p0 := dict_update payload (paging_params 0 2)).
  rewrite (loop_turn urljoin srv _ endpoint 2 true consume 0 p0 _ _ b1 [i1; i2]
             (post_replied urljoin srv endpoint p0 (mkWorld c []) r1 b1 eq_refl E1 J1) L1).
  cbv zeta. change (Z.of_nat (List.length [i1; i2]) <? 2) with false. cbv iota.
  set (w1 := sent _ _).
  set (p1 := dict_update _ (paging_params (0 + 2) 2)).
  rewrite (loop_turn urljoin srv _ endpoint 2 true consume (0 + 2) p1 _ _ b2 [i3; i4]
             (post_replied urljoin srv endpoint p1 w1 r2 b2 eq_refl E2 J2) L2).
  cbv zeta. change (Z.of_nat (List.length [i3; i4]) <? 2) with false. cbv iota.
  set (w2 := sent _ _).
  set (p2 := dict_update _ (paging_params (0 + 2 + 2) 2)).
  rewrite (loop_turn urljoin srv _ endpoint 2 true consume (0 + 2 + 2) p2 _ _ b3 [i5]
             (post_replied urljoin srv endpoint p2 w2 r3 b3 eq_refl E3 J3) L3).
  cbv zeta. change (Z.of_nat (List.length [i5]) <? 2) with true. cbv iota.
  unfold page_trace, page_outcome, page_world. cbn [fst snd].
  repeat split.
  - subst w2 w1. unfold sent. cbn [log client app map].
    unfold body_field, post_request. cbn [req_json].
    subst p2 p1 p0.
    rewrite !(proj1 (paging_params_merged _ _ _)). reflexivity.
  - subst w2 w1. unfold sent. cbn [log client app map].
    unfold body_field, post_request. cbn [req_json].
    subst p2 p1 p0.
    rewrite !(proj2 (paging_params_merged _ _ _)). reflexivity.
Qed.

(** C3.  The k-th call that [post_paginated] makes carries
    [PageStartIndex = page_start_index + k * page_size] and the page size,
    whatever the consumer did to the payload between the pages: the index
    advances by exactly the page size after every page that does not end the
    run.  Against a server that returns pages of 2, 2 and 1 items, with
    [page_size = 2] and items streamed, exactly three requests are sent,
    with start indexes 0, 2 and 4, and the five items are yielded in
    order. *)
Theorem start_index_advances_by_page_size :
  (forall server fuel endpoint payload start page_size stream_items consume
          w k body,
      nth_error
        (called_args
           (page_trace
              (post_paginated urljoin server fuel endpoint payload start
                 page_size stream_items consume w))) k = Some body ->
      dict_get "PageStartIndex" body
      = Some (PInt (start + Z.of_nat k * page_size))
      /\ dict_get "PageSize" body = Some (PInt page_size))
  /\ (forall c endpoint payload consume fuel r1 r2 r3 i1 i2 i3 i4 i5,
        is_page r1 [i1; i2] -> is_page r2 [i3; i4] -> is_page r3 [i5] ->
        let run := post_paginated urljoin (scripted [r1; r2; r3]) (3 + fuel)
                     endpoint payload 0 2 true consume (mkWorld c []) in
        yielded (page_trace run) = [i1; i2; i3; i4; i5]
        /\ page_outcome run = Exhausted
        /\ map (body_field "PageStartIndex") (log (page_world run))
           = [Some (PInt 0); Some (PInt 2); Some (PInt 4)]
        /\ map (body_field "PageSize") (log (page_world run))
           = [Some (PInt 2); Some (PInt 2); Some (PInt 2)]).
Proof.
  split.
  - intros server fuel endpoint payload start page_size stream_items consume
      w k body H.
    destruct (paging_params_merged payload start page_size) as [Hs Hp].
    exact (loop_calls urljoin server fuel endpoint page_size stream_items
             consume start _ w k body Hs Hp H).
  - intros. now apply three_pages.
Qed.

(** C4.  A turn of the loop on a page of fewer than [page_size] items ends
    the run there; on a page of [page_size] items or more it is followed by
    another call of [post], one page further, which sends another request.
    (The page is the one the generator finds when it resumes: in page mode
    the consumer has held it.)  A first page without items, for a positive
    page size, is yielded alone (no item in streaming mode) and the run ends
    after that one request. *)
Theorem pagination_stops_on_first_short_page :
  (forall server fuel endpoint page_size stream_items consume start payload
          w w1 resp items,
      post urljoin server endpoint (Some (PDict payload)) w = (Return resp, w1) ->
      result_list (page_seen stream_items consume resp payload) = Some items ->
      let run := post_paginated_loop urljoin server (S (S fuel)) endpoint
                   page_size stream_items consume start payload w in
      (Z.of_nat (List.length items) < page_size ->
       run = (Called payload (Return resp)
                :: page_yields stream_items resp items,
              Exhausted,
              payload_after stream_items consume resp items payload, w1))
      /\ (page_size <= Z.of_nat (List.length items) ->
          exists body res rest more,
            page_trace run
            = Called payload (Return resp)
                :: page_yields stream_items resp items
                ++ Called body res :: rest
            /\ dict_get "PageStartIndex" body = Some (PInt (start + page_size))
            /\ log (page_world run)
               = log w1 ++ post_request urljoin (client w1) endpoint body :: more))
  /\ (forall server fuel endpoint payload start page_size stream_items consume
            w r resp,
        let body := dict_update payload (paging_params start page_size) in
        let req := post_request urljoin (client w) endpoint body in
        server (log w) req = Replied r ->
        is_http_error r = false ->
        resp_json r = Some resp ->
        result_list (page_seen stream_items consume resp body) = Some [] ->
        0 < page_size ->
        let run := post_paginated urljoin server (S fuel) endpoint payload
                     start page_size stream_items consume w in
        page_trace run
        = Called body (Return resp)
            :: (if stream_items then [] else [Yielded resp])
        /\ page_outcome run = Exhausted
        /\ page_world run = sent req w).
Proof.
  split.
  - intros server fuel endpoint page_size stream_items consume start payload
      w w1 resp items P L run. subst run.
    rewrite (loop_turn urljoin server _ _ _ _ _ _ _ _ _ _ _ P L). cbv zeta.
    split; intros H.
    + apply Z.ltb_lt in H. now rewrite H.
    + apply Z.ltb_ge in H. rewrite H.
      set (payload1 := payload_after stream_items consume resp items payload).
      set (body := dict_update payload1 (paging_params (start + page_size) page_size)).
      destruct (loop_head urljoin server fuel endpoint page_size stream_items
                  consume (start + page_size) body w1)
        as (res & rest & more & T & G).
      destruct (post_paginated_loop urljoin server (S fuel) _ _ _ _ _ _ _)
        as [[[evs out] p3] w2].
      unfold page_trace, page_world in *. cbn [fst snd] in *. subst evs.
      exists body, res, rest, more. repeat split; auto.
      apply paging_params_merged.
  - intros server fuel endpoint payload start page_size stream_items consume
      w r resp body req H E J L Hp run. subst run. unfold post_paginated.
    fold body.
    rewrite (loop_turn urljoin server _ _ _ _ _ _ _ _ _ _ _
               (post_replied urljoin server endpoint body w r resp H E J) L).
    cbv zeta. cbn [List.length Z.of_nat].
    apply Z.ltb_lt in Hp. rewrite Hp.
    unfold page_trace, page_outcome, page_world, page_yields. cbn [fst snd map].
    destruct stream_items; auto.
Qed.

(** One page of campaigns fetched from a server that answers at once. *)
Lemma fetch_one_campaign_replied (server : Server) (advertiser_id version : pyval)
    (w : World) (r : Response) (items : list pyval) (version' more : pyval) :
  let req := post_request urljoin (client w) "delta/campaign/query/advertiser"
               (campaign_query advertiser_id version) in
  server (log w) req = Replied r ->
  is_delta_page "Campaigns" r items version' more ->
  _fetch_one_delta_campaign_for_advertiser urljoin server advertiser_id version w
  = (Return (items, version', more), sent req w).
Proof.
  intros req H D. unfold _fetch_one_delta_campaign_for_advertiser.
  now apply _post_delta_endpoint_replied with (r := r).
Qed.

(** C5.  A delta run yields, for its first page, the items with the page's
    tracking version, or the pair (None, version) alone when the page has no
    item; for every later page its items with that page's version, so
    nothing for a later page without items.  In particular, when the server
    answers the first request with an empty page, the pair (None, version)
    is yielded first, and it is all that is yielded when no more is
    available; and a later empty page adds the call and nothing else. *)
Theorem delta_cursor_surfaces_on_empty_first_page :
  (forall server fuel advertiser_id version w,
      let campaigns := fetch_all_delta_campaigns_for_advertiser urljoin server
                         fuel advertiser_id version w in
      let adgroups := fetch_all_delta_adgroups_for_advertiser urljoin server
                        fuel advertiser_id version w in
      yielded (delta_trace campaigns)
      = match pages (delta_trace campaigns) with
        | [] => []
        | page :: later => first_pairs_of page ++ flat_map pairs_of later
        end
      /\ yielded (delta_trace adgroups)
         = match pages (delta_trace adgroups) with
           | [] => []
           | page :: later => first_pairs_of page ++ flat_map pairs_of later
           end)
  /\ (forall version more,
        first_pairs_of ([], version, more) = [(PNone, version)]
        /\ pairs_of ([], version, more) = [])
  /\ (forall server fuel advertiser_id last w r version more,
        let req := post_request urljoin (client w)
                     "delta/campaign/query/advertiser"
                     (campaign_query advertiser_id last) in
        server (log w) req = Replied r ->
        is_delta_page "Campaigns" r [] version more ->
        let run := fetch_all_delta_campaigns_for_advertiser urljoin server
                     fuel advertiser_id last w in
        delta_trace run
        = Called last (Return ([], version, more))
            :: Yielded (PNone, version)
            :: delta_trace
                 (delta_more fuel
                    (_fetch_one_delta_campaign_for_advertiser urljoin server
                       advertiser_id) version more (sent req w))
        /\ (py_truthy more = false ->
            yielded (delta_trace run) = [(PNone, version)]
            /\ delta_outcome run = Exhausted
            /\ delta_world run = sent req w))
  /\ (forall server fuel advertiser_id version more w r version' more',
        let fetch_one := _fetch_one_delta_campaign_for_advertiser urljoin
                           server advertiser_id in
        let req := post_request urljoin (client w)
                     "delta/campaign/query/advertiser"
                     (campaign_query advertiser_id version) in
        py_truthy more = true ->
        server (log w) req = Replied r ->
        is_delta_page "Campaigns" r [] version' more' ->
        delta_more (S fuel) fetch_one version more w
        = let '(evs, out, w2) :=
            delta_more fuel fetch_one version' more' (sent req w) in
          (Called version (Return ([], version', more')) :: evs, out, w2)).
Proof.
  split; [|split; [|split]].
  - intros. split; apply fetch_all_delta_yielded.
  - intros. split; reflexivity.
  - intros server fuel advertiser_id last w r version more req H D run.
    subst run. unfold fetch_all_delta_campaigns_for_advertiser, fetch_all_delta.
    rewrite (fetch_one_campaign_replied server advertiser_id last w r [] version more H D).
    fold req. split.
    + destruct (delta_more fuel _ version more (sent req w)) as [[evs out] w2].
      reflexivity.
    + intros T.
      rewrite (proj2 (delta_more_continues _ fuel version more (sent req w)) T).
      repeat split.
  - intros server fuel advertiser_id version more w r version' more' fetch_one
      req T H D.
    cbn [delta_more]. rewrite T. subst fetch_one.
    rewrite (fetch_one_campaign_replied server advertiser_id version w r [] version' more' H D).
    fold req.
    destruct (delta_more fuel _ version' more' (sent req w)) as [[evs out] w2].
    reflexivity.
Qed.

(** C6.  In a delta run every fetch after the first is made because the
    page before said more was available and with the tracking version of
    that page, and every pair yielded carries the version of the page last
    fetched.  While the flag is true the loop fetches again, posting the
    latest version, and goes on from the version and the flag of the page it
    has just fetched, the first page included; so a run is exhausted only
    after a page that said no more was available.  Against a server that
    returns one item with version V1 and more available, then two items with
    version V2 and no more, the run yields (item1, V1), (item2, V2),
    (item3, V2) and its second request carries
    [LastChangeTrackingVersion = V1]; when the second page says more is
    available too, a third request carries V2. *)
Theorem delta_pages_follow_latest_version :
  (forall server fuel advertiser_id version w,
      chained None
        (delta_trace
           (fetch_all_delta_campaigns_for_advertiser urljoin server fuel
              advertiser_id version w))
      /\ chained None
           (delta_trace
              (fetch_all_delta_adgroups_for_advertiser urljoin server fuel
                 advertiser_id version w)))
  /\ (forall server fuel advertiser_id version more w,
        py_truthy more = true ->
        exists rest more_sent,
          delta_trace
            (delta_more (S fuel)
               (_fetch_one_delta_campaign_for_advertiser urljoin server
                  advertiser_id) version more w)
          = Called version
              (fst (_fetch_one_delta_campaign_for_advertiser urljoin server
                      advertiser_id version w)) :: rest
          /\ log (snd (_fetch_one_delta_campaign_for_advertiser urljoin server
                         advertiser_id version w))
             = log w ++ post_request urljoin (client w)
                          "delta/campaign/query/advertiser"
                          (campaign_query advertiser_id version) :: more_sent)
  /\ (forall c advertiser_id last fuel r1 r2 item1 item2 item3 V1 V2 more1 more2,
        is_delta_page "Campaigns" r1 [item1] V1 more1 ->
        py_truthy more1 = true ->
        is_delta_page "Campaigns" r2 [item2; item3] V2 more2 ->
        py_truthy more2 = false ->
        let run := fetch_all_delta_campaigns_for_advertiser urljoin
                     (scripted [r1; r2]) (1 + fuel) advertiser_id last
                     (mkWorld c []) in
        yielded (delta_trace run) = [(item1, V1); (item2, V2); (item3, V2)]
        /\ delta_outcome run = Exhausted
        /\ map (body_field "LastChangeTrackingVersion") (log (delta_world run))
           = [Some last; Some V1])
  /\ (forall server fuel advertiser_id version more w items version' more' w1,
        let fetch_one := _fetch_one_delta_campaign_for_advertiser urljoin
                           server advertiser_id in
        let rest := delta_more fuel fetch_one version' more' w1 in
        fetch_one version w = (Return (items, version', more'), w1) ->
        (py_truthy more = true ->
         delta_more (S fuel) fetch_one version more w
         = (Called version (Return (items, version', more'))
              :: map (fun item => Yielded (item, version')) items
                 ++ delta_trace rest,
            delta_outcome rest, delta_world rest))
        /\ fetch_all_delta_campaigns_for_advertiser urljoin server fuel
             advertiser_id version w
           = (Called version (Return (items, version', more'))
                :: map Yielded (first_pairs_of (items, version', more'))
                   ++ delta_trace rest,
              delta_outcome rest, delta_world rest))
  /\ (forall server fuel advertiser_id version w run,
        run = fetch_all_delta_campaigns_for_advertiser urljoin server fuel
                advertiser_id version w
        \/ run = fetch_all_delta_adgroups_for_advertiser urljoin server fuel
                   advertiser_id version w ->
        (delta_outcome run = Exhausted ->
         exists earlier page,
           pages (delta_trace run) = earlier ++ [page]
           /\ py_truthy (flag_of page) = false)
        /\ (delta_outcome run = OutOfFuel ->
            exists earlier page,
              pages (delta_trace run) = earlier ++ [page]
              /\ py_truthy (flag_of page) = true
              /\ List.length (pages (delta_trace run)) = S fuel)
        /\ (forall e, delta_outcome run = Raised e ->
            exists earlier arg,
              delta_trace run = earlier ++ [Called arg (Raise e)]))
  /\ (forall c advertiser_id last fuel r1 r2 r3 item1 item2 item3 item4
             V1 V2 V3 more1 more2 more3,
        is_delta_page "Campaigns" r1 [item1] V1 more1 ->
        py_truthy more1 = true ->
        is_delta_page "Campaigns" r2 [item2; item3] V2 more2 ->
        py_truthy more2 = true ->
        is_delta_page "Campaigns" r3 [item4] V3 more3 ->
        py_truthy more3 = false ->
        let run := fetch_all_delta_campaigns_for_advertiser urljoin
                     (scripted [r1; r2; r3]) (2 + fuel) advertiser_id last
                     (mkWorld c []) in
        yielded (delta_trace run)
        = [(item1, V1); (item2, V2); (item3, V2); (item4, V3)]
        /\ delta_outcome run = Exhausted
        /\ map (body_field "LastChangeTrackingVersion") (log (delta_world run))
           = [Some last; Some V1; Some V2]).
Proof.
  split; [|split; [|split; [|split; [|split]]]].
  - intros. split; apply fetch_all_delta_chained.
  - intros server fuel advertiser_id version more w T.
    destruct (proj1 (delta_more_continues
                       (_fetch_one_delta_campaign_for_advertiser urljoin server
                          advertiser_id) fuel version more w) T) as [rest R].
    unfold _fetch_one_delta_campaign_for_advertiser at 3.
    rewrite _post_delta_endpoint_world.
    destruct (post_log_head urljoin server "delta/campaign/query/advertiser"
                (campaign_query advertiser_id version) w) as [more_sent P].
    exists rest, more_sent. split; [exact R|exact P].
  - intros c advertiser_id last fuel r1 r2 item1 item2 item3 V1 V2 more1 more2
      D1 T1 D2 T2 run. subst run.
    unfold fetch_all_delta_campaigns_for_advertiser, fetch_all_delta.
    set (srv := scripted [r1; r2]).
    rewrite (fetch_one_campaign_replied srv advertiser_id last (mkWorld c [])
               r1 [item1] V1 more1 eq_refl D1).
    set (w1 := sent _ _).
    change (1 + fuel)%nat with (S fuel). cbn [delta_more]. rewrite T1.
    rewrite (fetch_one_campaign_replied srv advertiser_id V1 w1
               r2 [item2; item3] V2 more2 eq_refl D2).
    set (w2 := sent _ _).
    rewrite (proj2 (delta_more_continues _ fuel V2 more2 w2) T2).
    repeat split.
  - intros server fuel advertiser_id version more w items version' more' w1
      fetch_one rest F. split.
    + intros T. exact (delta_more_turn fetch_one fuel version more w items
                         version' more' w1 T F).
    + exact (fetch_all_delta_turn fetch_one fuel version w items version'
               more' w1 F).
  - intros server fuel advertiser_id version w run [-> | ->];
      apply fetch_all_delta_ending.
  - intros c advertiser_id last fuel r1 r2 r3 item1 item2 item3 item4
      V1 V2 V3 more1 more2 more3 D1 T1 D2 T2 D3 T3 run. subst run.
    unfold fetch_all_delta_campaigns_for_advertiser, fetch_all_delta.
    set (srv := scripted [r1; r2; r3]).
    rewrite (fetch_one_campaign_replied srv advertiser_id last (mkWorld c [])
               r1 [item1] V1 more1 eq_refl D1).
    set (w1 := sent _ _).
    change (2 + fuel)%nat with (S (S fuel)). cbn [delta_more]. rewrite T1.
    rewrite (fetch_one_campaign_replied srv advertiser_id V1 w1
               r2 [item2; item3] V2 more2 eq_refl D2).
    set (w2 := sent _ _). rewrite T2.
    rewrite (fetch_one_campaign_replied srv advertiser_id V2 w2
               r3 [item4] V3 more3 eq_refl D3).
    set (w3 := sent _ _).
    rewrite (proj2 (delta_more_continues _ fuel V3 more3 w3) T3).
    repeat split.
Qed.

End Claims.

(* ------------------------------------------------------------------ *)
(** * The ad group generator against the server *)

Section MoreRuns.

Variable urljoin : string -> string -> string.

(** One page of ad groups fetched from a server that answers at once. *)
Lemma fetch_one_adgroup_replied (server : Server) (advertiser_id version : pyval)
    (w : World) (r : Response) (items : list pyval) (version' more : pyval) :
  let req := post_request urljoin (client w) "delta/adgroup/query/advertiser"
               (adgroup_query advertiser_id version) in
  server (log w) req = Replied r ->
  is_delta_page "AdGroups" r items version' more ->
  _fetch_one_delta_adgroup_for_advertiser urljoin server advertiser_id version w
  = (Return (items, version', more), sent req w).
Proof.
  intros req H D. unfold _fetch_one_delta_adgroup_for_advertiser.
  now apply _post_delta_endpoint_replied with (r := r).
Qed.

(** X15.  The ad group generator against a server that returns a first page
    with more available and a second page without: it posts twice to the ad
    group endpoint, asking for entire ad groups, first with the caller's
    tracking version and then with the one of the first page; it yields the
    first page's ad groups with its version (or that version alone when the
    page is empty), then those of the second page with the second version,
    and returns. *)
Theorem adgroups_follow_latest_version (c : Client)
    (advertiser_id last : pyval) (fuel : nat) (r1 r2 : Response)
    (items1 items2 : list pyval) (V1 V2 more1 more2 : pyval) :
  is_delta_page "AdGroups" r1 items1 V1 more1 ->
  py_truthy more1 = true ->
  is_delta_page "AdGroups" r2 items2 V2 more2 ->
  py_truthy more2 = false ->
  let run := fetch_all_delta_adgroups_for_advertiser urljoin
               (scripted [r1; r2]) (1 + fuel) advertiser_id last
               (mkWorld c []) in
  yielded (delta_trace run)
  = first_pairs_of (items1, V1, more1) ++ pairs_of (items2, V2, more2)
  /\ delta_outcome run = Exhausted
  /\ log (delta_world run)
     = [post_request urljoin c "delta/adgroup/query/advertiser"
          (adgroup_query advertiser_id last);
        post_request urljoin c "delta/adgroup/query/advertiser"
          (adgroup_query advertiser_id V1)]
  /\ dict_get "ReturnEntireAdgroup" (adgroup_query advertiser_id V1)
     = Some (PBool true).
Proof.
  intros D1 T1 D2 T2 run.
  pose proof (fetch_all_delta_yielded
                (_fetch_one_delta_adgroup_for_advertiser urljoin
                   (scripted [r1; r2]) advertiser_id)
                (1 + fuel) last (mkWorld c [])) as Y.
  fold (fetch_all_delta_adgroups_for_advertiser urljoin (scripted [r1; r2])
          (1 + fuel) advertiser_id last (mkWorld c [])) in Y.
  fold run in Y. revert Y. subst run.
  unfold fetch_all_delta_adgroups_for_advertiser, fetch_all_delta.
  set (srv := scripted [r1; r2]).
  rewrite (fetch_one_adgroup_replied srv advertiser_id last (mkWorld c [])
             r1 items1 V1 more1 eq_refl D1).
  set (w1 := sent _ _).
  change (1 + fuel)%nat with (S fuel). cbn [delta_more]. rewrite T1.
  rewrite (fetch_one_adgroup_replied srv advertiser_id V1 w1
             r2 items2 V2 more2 eq_refl D2).
  set (w2 := sent _ _).
  rewrite (proj2 (delta_more_continues _ fuel V2 more2 w2) T2).
  unfold delta_trace, delta_outcome, delta_world. cbn [fst snd].
  intros Y. rewrite Y. cbn [pages flat_map].
  assert (P : forall v l (evs : list delta_event),
             pages (match l with
                    | [] => [Yielded (PNone, v)]
                    | item :: rest =>
                        Yielded (item, v)
                          :: map (fun item' => Yielded (item', v)) rest
                    end ++ evs) = pages evs).
  { intros v l evs. destruct l as [|item rest]; [reflexivity|].
    apply (pages_yields v (item :: rest) evs). }
  rewrite P. cbn [pages]. rewrite pages_yields. cbn [pages flat_map].
  rewrite app_nil_r. repeat split.
Qed.

End MoreRuns.

(* ------------------------------------------------------------------ *)
(** * Concrete runs *)

(** C2.  A client that has no token yet sends its first request, without the
    auth header, before any call of the authentication endpoint: here a GET
    against a server that accepts everything is answered and no token is
    ever asked for, although the getter of [token] on the same client does
    authenticate first.  The comment in [_request] ("this gets the token if
    one doesn't already exist") announces the call of that getter, which the
    body does not make. *)
Theorem fresh_client_requests_before_authenticating :
  (forall urljoin server login password base endpoint e json,
      exists rest,
        log (snd (get urljoin server endpoint json
                    (mkWorld (__init__ login password e base) [])))
        = mkRequest "GET"
            (_build_url urljoin (__init__ login password e base) endpoint)
            [] json :: rest)
  /\ get urljoin_onto_directory (always template_ok) "campaign/template/7"
       None (mkWorld alice [])
     = (Return (PDict [("CampaignId", PStr "7")]),
        mkWorld alice [mkRequest "GET" template_url [] None])
  /\ token urljoin_onto_directory (always login_ok) (mkWorld alice [])
     = (Return (PStr "t1"),
        mkWorld (install (PStr "t1") alice)
          [refresh_request urljoin_onto_directory alice 45]).
Proof.
  split; [|split].
  - intros. apply fresh_get_log_head.
  - reflexivity.
  - reflexivity.
Qed.


(** C7, as stated, fails.  The authentication endpoint answers 304 with an
    empty body: the refresh raises the decoding error of [resp.json()], not
    [TTDApiError].  It answers 300 with a body that holds a token: the
    refresh does not fail at all and installs the token. *)
Lemma refresh_on_redirection_status :
  (scripted [login_not_modified] []
     (refresh_request urljoin_onto_directory alice 45)
   = Replied login_not_modified
   /\ status_code login_not_modified = 304
   /\ _refresh_token urljoin_onto_directory (scripted [login_not_modified]) 45
        (mkWorld alice [])
      = (Raise JSONDecodeError,
         mkWorld alice [refresh_request urljoin_onto_directory alice 45])
   /\ (forall msg r,
         fst (_refresh_token urljoin_onto_directory
                (scripted [login_not_modified]) 45 (mkWorld alice []))
         <> Raise (TTDApiError msg r)))
  /\ (status_code login_multiple_choices = 300
      /\ _refresh_token urljoin_onto_directory
           (scripted [login_multiple_choices]) 45 (mkWorld alice [])
         = (Return tt,
            mkWorld (install (PStr "t1") alice)
              [refresh_request urljoin_onto_directory alice 45])).
Proof.
  split.
  - split; [reflexivity|]. split; [reflexivity|]. split; [reflexivity|].
    intros msg r H. discriminate H.
  - split; reflexivity.
Qed.


(** [refresh_rejected] on a server that refuses the login. *)
Lemma refresh_rejected_witness :
  scripted [login_refused] []
    (refresh_request urljoin_onto_directory alice 45) = Replied login_refused
  /\ is_auth_failure login_refused = true
  /\ _refresh_token urljoin_onto_directory (scripted [login_refused]) 45
       (mkWorld alice [])
     = (Raise (TTDApiPermissionsError (error_and_body login_refused)
                 login_refused),
        mkWorld alice [refresh_request urljoin_onto_directory alice 45]).
Proof.
  split; [reflexivity|]. split; [reflexivity|].
  exact (proj1 (refresh_rejected urljoin_onto_directory
                  (scripted [login_refused]) 45 (mkWorld alice [])
                  login_refused eq_refl) eq_refl).
Defined.

(** [reauth_ignores_configured_lifetime] on a client configured with 45
    minutes: the refresh after the 401 asks for 90. *)
Lemma reauth_ignores_configured_lifetime_witness :
  token_expires_in alice = 45
  /\ is_auth_failure token_expired = true
  /\ exists rest,
      log (snd (_request urljoin_onto_directory
                  (scripted [token_expired; login_ok; template_ok])
                  "GET" template_url None (mkWorld alice [])))
      = [] ++ mkRequest "GET" template_url [] None
           :: refresh_request urljoin_onto_directory alice 90 :: rest.
Proof.
  split; [reflexivity|]. split; [reflexivity|].
  exact (proj1 (reauth_ignores_configured_lifetime urljoin_onto_directory
                  (scripted [token_expired; login_ok; template_ok]))
           "GET" template_url None (mkWorld alice []) token_expired
           eq_refl eq_refl).
Defined.


(** [build_url_leading_separator] on the endpoint of [create_campaign]. *)
Lemma build_url_leading_separator_witness :
  String.get 0 "campaign" <> Some "/"%char
  /\ _build_url urljoin_onto_directory alice "/campaign"
     = "https://api.thetradedesk.com/v3/campaign".
Proof.
  assert (N : String.get 0 "campaign" <> Some "/"%char) by discriminate.
  split; [exact N|].
  exact (proj1 (proj2
           (proj2 (proj2 (proj2 (proj2 (proj2 (proj2
              (build_url_leading_separator urljoin_onto_directory alice
                 "campaign" 0)))))) N))).
Defined.

Lemma is_page_page_of (items : list pyval) : is_page (page_of items) items.
Proof. split; [reflexivity|]. eexists. split; reflexivity. Qed.

Lemma is_delta_page_campaigns_of (items : list pyval) (version : Z) (more : bool) :
  is_delta_page "Campaigns" (campaigns_of items version more) items
    (PInt version) (PBool more).
Proof. split; [reflexivity|]. eexists. repeat split. Qed.

(** [start_index_advances_by_page_size] on pages of sites. *)
Lemma start_index_advances_by_page_size_witness :
  is_page (page_of [PStr "a"; PStr "b"]) [PStr "a"; PStr "b"]
  /\ is_page (page_of [PStr "c"; PStr "d"]) [PStr "c"; PStr "d"]
  /\ is_page (page_of [PStr "e"]) [PStr "e"]
  /\ yielded
       (page_trace
          (post_paginated urljoin_onto_directory
             (scripted [page_of [PStr "a"; PStr "b"];
                        page_of [PStr "c"; PStr "d"];
                        page_of [PStr "e"]])
             3 "sitelist/query/advertiser" [("AdvertiserId", PStr "x")]
             0 2 true passive (mkWorld alice [])))
     = [PStr "a"; PStr "b"; PStr "c"; PStr "d"; PStr "e"].
Proof.
  split; [apply is_page_page_of|]. split; [apply is_page_page_of|].
  split; [apply is_page_page_of|].
  exact (proj1 (proj2 (start_index_advances_by_page_size urljoin_onto_directory)
                  alice "sitelist/query/advertiser"
                  [("AdvertiserId", PStr "x")] passive 0%nat
                  _ _ _ _ _ _ _ _
                  (is_page_page_of [PStr "a"; PStr "b"])
                  (is_page_page_of [PStr "c"; PStr "d"])
                  (is_page_page_of [PStr "e"]))).
Defined.

(** [pagination_stops_on_first_short_page] on an empty first page, pages of
    100 asked for. *)
Lemma pagination_stops_on_first_short_page_witness :
  scripted [page_of []] []
    (post_request urljoin_onto_directory alice "sitelist/query/advertiser"
       (dict_update [("AdvertiserId", PStr "x")] (paging_params 0 100)))
  = Replied (page_of [])
  /\ 0 < 100
  /\ page_outcome
       (post_paginated urljoin_onto_directory (scripted [page_of []]) 1
          "sitelist/query/advertiser" [("AdvertiserId", PStr "x")] 0 100
          false passive (mkWorld alice []))
     = Exhausted.
Proof.
  split; [reflexivity|]. split; [lia|].
  exact (proj1 (proj2
           (proj2 (pagination_stops_on_first_short_page urljoin_onto_directory)
              (scripted [page_of []]) 0%nat "sitelist/query/advertiser"
              [("AdvertiserId", PStr "x")] 0 100 false passive
              (mkWorld alice []) (page_of []) _ eq_refl eq_refl eq_refl
              eq_refl eq_refl))).
Defined.

(** [delta_cursor_surfaces_on_empty_first_page] on a first page without
    campaigns and no more to come. *)
Lemma delta_cursor_surfaces_on_empty_first_page_witness :
  is_delta_page "Campaigns" (campaigns_of [] 17 false) [] (PInt 17) (PBool false)
  /\ yielded
       (delta_trace
          (fetch_all_delta_campaigns_for_advertiser urljoin_onto_directory
             (scripted [campaigns_of [] 17 false]) 0 (PStr "x") PNone
             (mkWorld alice [])))
     = [(PNone, PInt 17)].
Proof.
  split; [apply is_delta_page_campaigns_of|].
  exact (proj1
           (proj2
              (proj1 (proj2 (proj2
                 (delta_cursor_surfaces_on_empty_first_page
                    urljoin_onto_directory)))
                 (scripted [campaigns_of [] 17 false]) 0%nat (PStr "x") PNone
                 (mkWorld alice []) (campaigns_of [] 17 false) (PInt 17)
                 (PBool false) eq_refl (is_delta_page_campaigns_of [] 17 false))
              eq_refl)).
Defined.

(** [delta_pages_follow_latest_version] on one campaign at version 5, more
    available, then two campaigns at version 9; and on the same run going on
    with more available to a third page, one campaign at version 12. *)
Lemma delta_pages_follow_latest_version_witness :
  is_delta_page "Campaigns" (campaigns_of [PStr "c1"] 5 true)
    [PStr "c1"] (PInt 5) (PBool true)
  /\ is_delta_page "Campaigns" (campaigns_of [PStr "c2"; PStr "c3"] 9 false)
       [PStr "c2"; PStr "c3"] (PInt 9) (PBool false)
  /\ yielded
       (delta_trace
          (fetch_all_delta_campaigns_for_advertiser urljoin_onto_directory
             (scripted [campaigns_of [PStr "c1"] 5 true;
                        campaigns_of [PStr "c2"; PStr "c3"] 9 false])
             1 (PStr "x") PNone (mkWorld alice [])))
     = [(PStr "c1", PInt 5); (PStr "c2", PInt 9); (PStr "c3", PInt 9)]
  /\ is_delta_page "Campaigns" (campaigns_of [PStr "c2"; PStr "c3"] 9 true)
       [PStr "c2"; PStr "c3"] (PInt 9) (PBool true)
  /\ is_delta_page "Campaigns" (campaigns_of [PStr "c4"] 12 false)
       [PStr "c4"] (PInt 12) (PBool false)
  /\ map (body_field "LastChangeTrackingVersion")
       (log (delta_world
               (fetch_all_delta_campaigns_for_advertiser
                  urljoin_onto_directory
                  (scripted [campaigns_of [PStr "c1"] 5 true;
                             campaigns_of [PStr "c2"; PStr "c3"] 9 true;
                             campaigns_of [PStr "c4"] 12 false])
                  2 (PStr "x") PNone (mkWorld alice []))))
     = [Some PNone; Some (PInt 5); Some (PInt 9)].
Proof.
  split; [apply is_delta_page_campaigns_of|].
  split; [apply is_delta_page_campaigns_of|].
  split.
  { exact (proj1
             (proj1 (proj2 (proj2 (delta_pages_follow_latest_version
                                     urljoin_onto_directory)))
                alice (PStr "x") PNone 0%nat _ _ _ _ _ _ _ _ _
                (is_delta_page_campaigns_of [PStr "c1"] 5 true) eq_refl
                (is_delta_page_campaigns_of [PStr "c2"; PStr "c3"] 9 false)
                eq_refl)). }
  split; [apply is_delta_page_campaigns_of|].
  split; [apply is_delta_page_campaigns_of|].
  exact (proj2 (proj2
           (proj2 (proj2 (proj2 (proj2 (proj2
              (delta_pages_follow_latest_version urljoin_onto_directory)))))
              alice (PStr "x") PNone 0%nat _ _ _ _ _ _ _ _ _ _ _ _ _
              (is_delta_page_campaigns_of [PStr "c1"] 5 true) eq_refl
              (is_delta_page_campaigns_of [PStr "c2"; PStr "c3"] 9 true)
              eq_refl
              (is_delta_page_campaigns_of [PStr "c4"] 12 false) eq_refl))).
Defined.

(* ------------------------------------------------------------------ *)
(** * Concrete runs of the further properties *)

(** [refresh_failure_changes_nothing] on a login that is refused. *)
Lemma refresh_failure_changes_nothing_witness :
  fst (_refresh_token urljoin_onto_directory (scripted [login_refused]) 45
         (mkWorld alice []))
  = Raise (TTDApiPermissionsError (error_and_body login_refused) login_refused)
  /\ client (snd (_refresh_token urljoin_onto_directory
                    (scripted [login_refused]) 45 (mkWorld alice [])))
     = alice.
Proof.
  split; [reflexivity|].
  rewrite (refresh_failure_changes_nothing urljoin_onto_directory
             (scripted [login_refused]) 45 (mkWorld alice []) _ eq_refl).
  reflexivity.
Defined.

(** [refresh_needs_a_token_entry] on a login answered without a token. *)
Lemma refresh_needs_a_token_entry_witness :
  scripted [login_without_token] []
    (refresh_request urljoin_onto_directory alice 45)
  = Replied login_without_token
  /\ is_http_error login_without_token = false
  /\ fst (_refresh_token urljoin_onto_directory
            (scripted [login_without_token]) 45 (mkWorld alice []))
     = Raise (KeyError "Token").
Proof.
  split; [reflexivity|]. split; [reflexivity|].
  exact (proj1 (proj2
           (refresh_needs_a_token_entry urljoin_onto_directory
              (scripted [login_without_token]) 45 (mkWorld alice [])
              login_without_token eq_refl eq_refl))
           _ eq_refl eq_refl).
Defined.

(** [token_is_cached] on a client that has just logged in. *)
Lemma token_is_cached_witness :
  fst (token urljoin_onto_directory (always login_ok) (mkWorld alice []))
  = Return (PStr "t1")
  /\ is_None (PStr "t1") = false
  /\ log (snd (token urljoin_onto_directory (always login_ok)
                 (snd (token urljoin_onto_directory (always login_ok)
                         (mkWorld alice [])))))
     = [refresh_request urljoin_onto_directory alice 45].
Proof.
  split; [reflexivity|]. split; [reflexivity|].
  rewrite (token_is_cached urljoin_onto_directory (always login_ok)
             (mkWorld alice []) (PStr "t1") eq_refl eq_refl).
  reflexivity.
Defined.

(** [null_token_is_not_cached] on a login answered with a null token. *)
Lemma null_token_is_not_cached_witness :
  _token alice = PNone
  /\ is_http_error login_null = false
  /\ token_of login_null = Return PNone
  /\ token urljoin_onto_directory (always login_null) (mkWorld alice [])
     = (Return PNone,
        mkWorld (install PNone alice)
          [refresh_request urljoin_onto_directory alice 45]).
Proof.
  split; [reflexivity|]. split; [reflexivity|]. split; [reflexivity|].
  exact (proj1 (null_token_is_not_cached urljoin_onto_directory
                  (always login_null) (mkWorld alice []) login_null
                  eq_refl eq_refl eq_refl eq_refl)).
Defined.


(** [verbs_need_a_json_body] on an update answered 204 with no body. *)
Lemma verbs_need_a_json_body_witness :
  is_http_error no_content = false
  /\ resp_json no_content = None
  /\ update_campaign urljoin_onto_directory (scripted [no_content])
       (PDict [("CampaignId", PStr "7")]) (mkWorld alice [])
     = (Raise JSONDecodeError,
        mkWorld alice
          [mkRequest "PUT" campaign_url []
             (Some (PDict [("CampaignId", PStr "7")]))]).
Proof.
  split; [reflexivity|]. split; [reflexivity|].
  exact (proj2 (proj2
           (verbs_need_a_json_body urljoin_onto_directory
              (scripted [no_content]) "/campaign"
              (Some (PDict [("CampaignId", PStr "7")])) (mkWorld alice [])
              no_content eq_refl eq_refl)) eq_refl).
Defined.

(** [page_without_result_ends_the_run] on a body that holds a message
    only. *)
Lemma page_without_result_ends_the_run_witness :
  andthen (py_getitem (PDict [("Message", PStr "no such advertiser")]) "Result")
    py_iter = Raise (KeyError "Result")
  /\ yielded
       (page_trace
          (post_paginated_loop urljoin_onto_directory
             (scripted [page_without_result]) 1 "sitelist/query/advertiser"
             100 false passive 0 [("AdvertiserId", PStr "x")]
             (mkWorld alice [])))
     = [PDict [("Message", PStr "no such advertiser")]]
  /\ yielded
       (page_trace
          (post_paginated_loop urljoin_onto_directory
             (scripted [page_without_result]) 1 "sitelist/query/advertiser"
             100 true passive 0 [("AdvertiserId", PStr "x")]
             (mkWorld alice [])))
     = [].
Proof.
  split; [reflexivity|].
  destruct (page_without_result_ends_the_run urljoin_onto_directory
              (scripted [page_without_result]) 0 "sitelist/query/advertiser"
              100 0 passive [("AdvertiserId", PStr "x")] (mkWorld alice [])
              _ _ _ eq_refl eq_refl) as [S P].
  rewrite S, P. split; reflexivity.
Defined.

(** [nonpositive_page_size_never_ends] on a page size of zero and a server
    that keeps returning empty pages. *)
Lemma nonpositive_page_size_never_ends_witness :
  0 <= 0
  /\ page_outcome
       (post_paginated urljoin_onto_directory (always (page_of [])) 5
          "sitelist/query/advertiser" [("AdvertiserId", PStr "x")] 0 0 true
          passive (mkWorld alice []))
     = OutOfFuel.
Proof.
  split; [lia|].
  destruct (nonpositive_page_size_never_ends urljoin_onto_directory
              (always (page_of [])) 5 "sitelist/query/advertiser"
              [("AdvertiserId", PStr "x")] 0 0 true passive
              (mkWorld alice []) (Z.le_refl 0)) as [H|[e H]].
  - exact H.
  - discriminate H.
Defined.

(** [paging_leaves_other_fields] on the advertiser field of a sitelist
    query. *)
Lemma paging_leaves_other_fields_witness :
  String.eqb "AdvertiserId" "PageStartIndex" = false
  /\ String.eqb "AdvertiserId" "PageSize" = false
  /\ dict_get "AdvertiserId"
       (page_payload
          (post_paginated urljoin_onto_directory
             (scripted [page_of [PStr "a"; PStr "b"]; page_of []]) 2
             "sitelist/query/advertiser"
             [("AdvertiserId", PStr "x"); ("PageSize", PInt 7)] 0 2 true
             passive (mkWorld alice [])))
     = Some (PStr "x").
Proof.
  split; [reflexivity|]. split; [reflexivity|].
  exact (proj1 (proj2
           (paging_leaves_other_fields urljoin_onto_directory
              (scripted [page_of [PStr "a"; PStr "b"]; page_of []]) 1
              "sitelist/query/advertiser"
              [("AdvertiserId", PStr "x"); ("PageSize", PInt 7)] 0 2 true
              (mkWorld alice []) "AdvertiserId" eq_refl eq_refl))).
Defined.

(** [delta_page_needs_all_three_fields] on a page of campaigns that lacks
    its flag. *)
Lemma delta_page_needs_all_three_fields_witness :
  is_http_error campaigns_without_flag = false
  /\ yielded
       (delta_trace
          (fetch_all_delta_campaigns_for_advertiser urljoin_onto_directory
             (scripted [campaigns_without_flag]) 3 (PStr "x") PNone
             (mkWorld alice [])))
     = []
  /\ delta_outcome
       (fetch_all_delta_campaigns_for_advertiser urljoin_onto_directory
          (scripted [campaigns_without_flag]) 3 (PStr "x") PNone
          (mkWorld alice []))
     = Raised (KeyError "MoreCampaignsAvailable").
Proof.
  split; [reflexivity|].
  rewrite (proj2 (proj2 (proj2
             (delta_page_needs_all_three_fields urljoin_onto_directory
                (scripted [campaigns_without_flag])
                "delta/campaign/query/advertiser"
                (campaign_query (PStr "x") PNone) "Campaigns"
                (mkWorld alice []) campaigns_without_flag _
                eq_refl eq_refl eq_refl)))
             3%nat (PStr "x") PNone [PStr "c1"] (PInt 5)
             eq_refl eq_refl eq_refl eq_refl eq_refl eq_refl).
  split; reflexivity.
Defined.

Lemma is_delta_page_adgroups_of (items : list pyval) (version : Z) (more : bool) :
  is_delta_page "AdGroups" (adgroups_of items version more) items
    (PInt version) (PBool more).
Proof. split; [reflexivity|]. eexists. repeat split. Qed.

(** [adgroups_follow_latest_version] on an empty first page at version 5,
    more available, then one ad group at version 9. *)
Lemma adgroups_follow_latest_version_witness :
  py_truthy (PBool true) = true
  /\ py_truthy (PBool false) = false
  /\ yielded
       (delta_trace
          (fetch_all_delta_adgroups_for_advertiser urljoin_onto_directory
             (scripted [adgroups_of [] 5 true; adgroups_of [PStr "g1"] 9 false])
             1 (PStr "x") PNone (mkWorld alice [])))
     = [(PNone, PInt 5); (PStr "g1", PInt 9)].
Proof.
  split; [reflexivity|]. split; [reflexivity|].
  exact (proj1
           (adgroups_follow_latest_version urljoin_onto_directory alice
              (PStr "x") PNone 0%nat _ _ _ _ _ _ _ _
              (is_delta_page_adgroups_of [] 5 true) eq_refl
              (is_delta_page_adgroups_of [PStr "g1"] 9 false) eq_refl)).
Defined.

(** [paginating_shortcuts_defaults] on the three shortcuts: site lists
    asked from index 4 in pages of 2, advertisers asked with nothing given,
    and delta site lists on data that asks for pages of 7, where
    [get_delta_sitelists] sends 100. *)
Lemma paginating_shortcuts_defaults_witness :
  (nth_error
     (called_args
        (page_trace
           (get_all_sitelists urljoin_onto_directory
              (scripted [page_of [PStr "a"; PStr "b"]; page_of [PStr "c"]]) 3
              [("AdvertiserId", PStr "x")] (Some 4) (Some 2) passive
              (mkWorld alice [])))) 1
   = Some [("AdvertiserId", PStr "x"); ("PageStartIndex", PInt 6);
           ("PageSize", PInt 2)]
   /\ dict_get "PageStartIndex"
        [("AdvertiserId", PStr "x"); ("PageStartIndex", PInt 6);
         ("PageSize", PInt 2)]
      = Some (PInt 6))
  /\ (nth_error
        (called_args
           (page_trace
              (get_all_advertisers urljoin_onto_directory
                 (scripted [page_of [PStr "a"; PStr "b"]]) 3
                 [("PartnerId", PStr "p")] None None passive
                 (mkWorld alice [])))) 0
      = Some [("PartnerId", PStr "p"); ("PageStartIndex", PInt 0);
              ("PageSize", PInt 100)]
      /\ dict_get "PageSize"
           [("PartnerId", PStr "p"); ("PageStartIndex", PInt 0);
            ("PageSize", PInt 100)]
         = Some (PInt 100))
  /\ (nth_error
        (called_args
           (page_trace
              (get_delta_sitelists urljoin_onto_directory
                 (scripted [page_of [PStr "a"]]) 1
                 [("AdvertiserId", PStr "x"); ("PageSize", PInt 7)] passive
                 (mkWorld alice [])))) 0
      = Some [("AdvertiserId", PStr "x"); ("PageSize", PInt 100);
              ("PageStartIndex", PInt 0)]
      /\ dict_get "PageSize"
           [("AdvertiserId", PStr "x"); ("PageSize", PInt 100);
            ("PageStartIndex", PInt 0)]
         = Some (PInt 100)).
Proof.
  split; [|split]; (split; [reflexivity|]).
  - exact (proj1
             (proj1
                (proj2 (proj2 (proj2 (proj2
                   (paginating_shortcuts_defaults urljoin_onto_directory
                      (scripted [page_of [PStr "a"; PStr "b"];
                                 page_of [PStr "c"]]) 3
                      [("AdvertiserId", PStr "x")] (Some 4) (Some 2) passive
                      (mkWorld alice [])))))
                   1%nat
                   [("AdvertiserId", PStr "x"); ("PageStartIndex", PInt 6);
                    ("PageSize", PInt 2)])
                eq_refl)).
  - exact (proj2
             (proj1 (proj2
                (proj2 (proj2 (proj2 (proj2
                   (paginating_shortcuts_defaults urljoin_onto_directory
                      (scripted [page_of [PStr "a"; PStr "b"]]) 3
                      [("PartnerId", PStr "p")] None None passive
                      (mkWorld alice [])))))
                   0%nat
                   [("PartnerId", PStr "p"); ("PageStartIndex", PInt 0);
                    ("PageSize", PInt 100)]))
                eq_refl)).
  - exact (proj2
             (proj2 (proj2
                (proj2 (proj2 (proj2 (proj2
                   (paginating_shortcuts_defaults urljoin_onto_directory
                      (scripted [page_of [PStr "a"]]) 1
                      [("AdvertiserId", PStr "x"); ("PageSize", PInt 7)]
                      None None passive (mkWorld alice [])))))
                   0%nat
                   [("AdvertiserId", PStr "x"); ("PageSize", PInt 100);
                    ("PageStartIndex", PInt 0)]))
                eq_refl)).
Defined.
